(** * vertex-claude-code-router: the gateway request handler of [app.py]

    A shallow embedding of the Flask handler [create_message] (POST
    /v1/messages), of [VertexClaudeClient.create_message] and of the
    streaming generator [generate], followed by the properties of the
    specification that concern them.

    Python values that come out of [request.json] are modelled by [json];
    Python's [None] is [JNull].  A Python [str] is a [string], one [ascii]
    per character.  A [dict] is an association list in insertion order
    with pairwise distinct keys (the order decides which duplicated
    keyword a call reports and the order of the serialized fields).
    Exceptions are values of [pyexn]; effects (calls of the upstream
    provider, chunks yielded by the generator) are recorded, in order,
    in a trace threaded through the monad [M].  The handler starts from
    the parsed body; log lines are modelled only where evaluating their
    argument can raise. *)

From Stdlib Require Import ZArith String Ascii List Bool DecimalString.
From Stdlib Require Import Floats.PrimFloat.
Import ListNotations.

Set Warnings "-register-all".
Open Scope string_scope.

(** ** Python values *)

Inductive json : Type :=
| JNull
| JBool (b : bool)
| JInt (z : Z)
| JFloat (f : float)
| JStr (s : string)
| JArr (items : list json)
| JObj (fields : list (string * json)).

Definition pydict : Type := list (string * json).

(** [type(o).__name__] *)
Definition type_name (o : json) : string :=
  match o with
  | JNull => "NoneType"
  | JBool _ => "bool"
  | JInt _ => "int"
  | JFloat _ => "float"
  | JStr _ => "str"
  | JArr _ => "list"
  | JObj _ => "dict"
  end.

(** [bool(o)]: the truth value tested by [if o] and [if not o]. *)
Definition truthy (o : json) : bool :=
  match o with
  | JNull => false
  | JBool b => b
  | JInt z => negb (Z.eqb z 0)
  | JFloat f => negb (PrimFloat.eqb f 0%float)
  | JStr s => negb (String.eqb s "")
  | JArr items => match items with [] => false | _ :: _ => true end
  | JObj fields => match fields with [] => false | _ :: _ => true end
  end.

Definition is_str (o : json) : bool :=
  match o with JStr _ => true | _ => false end.

Definition is_list (o : json) : bool :=
  match o with JArr _ => true | _ => false end.

(** [o == 'text'] for a string literal on the right. *)
Definition eq_str (o : json) (lit : string) : bool :=
  match o with JStr s => String.eqb s lit | _ => false end.

(** [k in names] / [k not in names] on a list of string literals. *)
Definition str_in (k : string) (names : list string) : bool :=
  existsb (String.eqb k) names.

(** ** Dictionaries *)

Module Dict.

Fixpoint lookup (k : string) (d : pydict) : option json :=
  match d with
  | [] => None
  | (k', v) :: rest => if String.eqb k k' then Some v else lookup k rest
  end.

(** [d.get(k, default)] *)
Definition get_default (k : string) (default : json) (d : pydict) : json :=
  match lookup k d with Some v => v | None => default end.

(** [d.get(k)] *)
Definition get (k : string) (d : pydict) : json := get_default k JNull d.

Definition mem (k : string) (d : pydict) : bool :=
  match lookup k d with Some _ => true | None => false end.

(** [d[k] = v]: an existing key keeps its place, a new one goes last. *)
Fixpoint set (k : string) (v : json) (d : pydict) : pydict :=
  match d with
  | [] => [(k, v)]
  | (k', v') :: rest =>
      if String.eqb k k' then (k', v) :: rest else (k', v') :: set k v rest
  end.

(** [{k: v for k, v in d.items() if k not in names}] *)
Definition without (names : list string) (d : pydict) : pydict :=
  filter (fun kv => negb (str_in (fst kv) names)) d.

(** [{**base, **extra}]: the entries of [extra] are stored one by one. *)
Definition update (base extra : pydict) : pydict :=
  fold_left (fun acc kv => set (fst kv) (snd kv) acc) extra base.

Definition keys (d : pydict) : list string := map fst d.

(** The first key of [d] (in iteration order) that is in [names]. *)
Definition first_key_in (names : list string) (d : pydict) : option string :=
  find (fun k => str_in k names) (keys d).

End Dict.

(** ** Exceptions *)

Inductive pyexn : Type :=
| AttributeError (obj_type attr : string)
| TypeError (msg : string)
| KeyError (key_repr : string)
| IndexError (msg : string)
| ProviderError (msg : string).   (* any exception of the provider SDK *)

(** [str(e)] (CPython wording). *)
Definition str (e : pyexn) : string :=
  match e with
  | AttributeError t a => "'" ++ t ++ "' object has no attribute '" ++ a ++ "'"
  | TypeError msg => msg
  | KeyError key_repr => key_repr
  | IndexError msg => msg
  | ProviderError msg => msg
  end.

Inductive outcome (A : Type) : Type :=
| Return (a : A)
| Raise (e : pyexn).
Arguments Return {A} a.
Arguments Raise {A} e.

Definition obind {A B} (o : outcome A) (k : A -> outcome B) : outcome B :=
  match o with
  | Return a => k a
  | Raise e => Raise e
  end.

Declare Scope outcome_scope.
Delimit Scope outcome_scope with outcome.
Notation "x <- c ;; k" := (obind c (fun x => k))
  (at level 61, c at next level, right associativity) : outcome_scope.

(** [o.get]: only a dict has the method. *)
Definition get_method (o : json) : outcome pydict :=
  match o with
  | JObj d => Return d
  | _ => Raise (AttributeError (type_name o) "get")
  end.

(** [o[0]] *)
Definition getitem0 (o : json) : outcome json :=
  match o with
  | JArr (x :: _) => Return x
  | JArr [] => Raise (IndexError "list index out of range")
  | JStr (String c _) => Return (JStr (String c ""))
  | JStr EmptyString => Raise (IndexError "string index out of range")
  | JObj _ => Raise (KeyError "0")
  | _ => Raise (TypeError ("'" ++ type_name o ++ "' object is not subscriptable"))
  end.

(** [o[:100]], evaluated only for its exception, as the log lines do. *)
Definition slice_check (o : json) : outcome unit :=
  match o with
  | JStr _ | JArr _ => Return tt
  | JObj _ => Raise (TypeError "unhashable type: 'slice'")
  | _ => Raise (TypeError ("'" ++ type_name o ++ "' object is not subscriptable"))
  end.

(** [hash(o)], evaluated only for its exception, as [o in some_dict] does. *)
Definition hash_check (o : json) : outcome unit :=
  match o with
  | JArr _ | JObj _ => Raise (TypeError ("unhashable type: '" ++ type_name o ++ "'"))
  | _ => Return tt
  end.

Definition nat_to_string (n : nat) : string :=
  NilZero.string_of_uint (Nat.to_uint n).

Definition Z_to_string (z : Z) : string :=
  NilZero.string_of_int (Z.to_int z).

(** [sep.join(items)] once the items have been produced: every item has to
    be a [str]; the first that is not raises. *)
Fixpoint join_from (i : nat) (sep : string) (items : list json) : outcome string :=
  match items with
  | [] => Return ""
  | JStr s :: rest =>
      match rest with
      | [] => Return s
      | _ :: _ => (tl <- join_from (S i) sep rest ;; Return (s ++ sep ++ tl))%outcome
      end
  | o :: _ =>
      Raise (TypeError ("sequence item " ++ nat_to_string i
                        ++ ": expected str instance, " ++ type_name o ++ " found"))
  end.

Definition join (sep : string) (items : list json) : outcome string :=
  join_from 0 sep items.

(** ** Effects: the trace of provider calls and yielded chunks *)

Inductive event : Type :=
| ProviderCreate (params : pydict)   (* [client.messages.create] *)
| ProviderStream (params : pydict)   (* [client.messages.stream] *)
| StreamEnter                        (* __enter__ of the stream manager *)
| StreamExit                         (* __exit__ of the stream manager *)
| Yield (chunk : string).            (* a chunk yielded by the generator *)

Definition trace : Type := list event.

Definition M (A : Type) : Type := trace -> outcome A * trace.

Definition ret {A} (a : A) : M A := fun tr => (Return a, tr).

Definition raise {A} (e : pyexn) : M A := fun tr => (Raise e, tr).

Definition bind {A B} (m : M A) (k : A -> M B) : M B :=
  fun tr =>
    match m tr with
    | (Return a, tr') => k a tr'
    | (Raise e, tr') => (Raise e, tr')
    end.

Definition lift {A} (o : outcome A) : M A := fun tr => (o, tr).

Definition emit (ev : event) : M unit := fun tr => (Return tt, (tr ++ [ev])%list).

(** [try: m  except Exception as e: h e] *)
Definition try_except {A} (m : M A) (h : pyexn -> M A) : M A :=
  fun tr =>
    match m tr with
    | (Return a, tr') => (Return a, tr')
    | (Raise e, tr') => h e tr'
    end.

(** [with stream_manager as stream: body] *)
Definition with_manager {A} (body : M A) : M A :=
  fun tr =>
    let '(o, tr') := body (tr ++ [StreamEnter])%list in
    (o, (tr' ++ [StreamExit])%list).

Declare Scope M_scope.
Delimit Scope M_scope with M.
Notation "x <- c ;; k" := (bind c (fun x => k))
  (at level 61, c at next level, right associativity) : M_scope.
Notation "c ;;; k" := (bind c (fun _ => k))
  (at level 61, right associativity) : M_scope.

Definition yields (tr : trace) : list string :=
  flat_map (fun ev => match ev with Yield s => [s] | _ => [] end) tr.

Definition is_provider_call (ev : event) : bool :=
  match ev with
  | ProviderCreate _ | ProviderStream _ => true
  | _ => false
  end.

Definition provider_calls (tr : trace) : list event :=
  filter is_provider_call tr.

(** ** Objects of the provider SDK *)

Module Usage.
Record t : Type := {
  input_tokens : Z;
  output_tokens : Z;
  cache_creation_input_tokens : option Z;
  cache_read_input_tokens : option Z
}.
End Usage.

(** A content block always has [type]; only text blocks have [text]. *)
Module ContentBlock.
Record t : Type := {
  class_name : string;
  type : string;
  text : option string
}.
End ContentBlock.

Module Message.
Record t : Type := {
  id : string;
  content : list ContentBlock.t;
  model : string;
  role : string;
  stop_reason : option string;
  stop_sequence : option string;
  type : string;
  usage : Usage.t
}.
End Message.

(** [stream.text_stream]: the fragments that arrive, then either the end
    of the sequence or an exception of the provider. *)
Record text_stream : Type := {
  fragments : list string;
  failure : option pyexn
}.

Inductive sdk_result : Type :=
| Created (message : Message.t)
| Manager (stream : text_stream).

Definition opt_str (o : option string) : json :=
  match o with Some s => JStr s | None => JNull end.

Definition opt_int (o : option Z) : json :=
  match o with Some z => JInt z | None => JNull end.

Definition newline : string := String (ascii_of_nat 10) "".

(** ** The upstream client adapter *)

Module VertexClaudeClient.
Section Client.

(** [MODEL], the default of the constructor. *)
Variable MODEL : string.

(** The provider behind [self.client.messages]: [create] answers with a
    message or raises; [stream] answers with a stream manager, and raises
    when the call or the entry into the manager fails. *)
Variable messages_create : pydict -> outcome Message.t.
Variable messages_stream : pydict -> outcome text_stream.

Record t : Type := {
  model : string;
  tools : list json
}.

(** [__init__]: [self.model = model or MODEL], [self.tools = []]. *)
Definition init (model_arg : option string) : t :=
  {| model := match model_arg with
              | Some m => if String.eqb m "" then MODEL else m
              | None => MODEL
              end;
     tools := [] |}.

Definition add_tools (new_tools : list json) (self : t) : t :=
  {| model := model self; tools := new_tools |}.

(** The parameters of [create_message] once a call is bound. *)
Record bound : Type := {
  prompt : json;
  max_tokens : json;
  system_prompt : json;
  stream : json;
  kwargs : pydict
}.

(** The names CPython gives the method in a TypeError: the callee uses
    the qualified name of its code object, the call site puts the name of
    the defining module, [app], before it. *)
Definition qualname : string := "VertexClaudeClient.create_message()".

Definition module_qualname : string := "app." ++ qualname.

(** Binding of [self.create_message(k1=v1, ..., **starred)] to
    [(self, prompt, max_tokens=1024, system_prompt=None, stream=False,
    **kwargs)]: a key of [starred] that repeats an explicit keyword is
    refused where the call is made, [self] is refused by the callee. *)
Definition bind_call (explicit starred : pydict) : outcome bound :=
  match Dict.first_key_in (Dict.keys explicit) starred with
  | Some k =>
      Raise (TypeError (module_qualname
                        ++ " got multiple values for keyword argument '"
                        ++ k ++ "'"))
  | None =>
      let passed := (explicit ++ starred)%list in
      if Dict.mem "self" passed then
        Raise (TypeError (qualname ++ " got multiple values for argument 'self'"))
      else
        match Dict.lookup "prompt" passed with
        | None =>
            Raise (TypeError (qualname
                     ++ " missing 1 required positional argument: 'prompt'"))
        | Some p =>
            Return {| prompt := p;
                      max_tokens := Dict.get_default "max_tokens" (JInt 1024) passed;
                      system_prompt := Dict.get_default "system_prompt" JNull passed;
                      stream := Dict.get_default "stream" (JBool false) passed;
                      kwargs := Dict.without
                                  ["prompt"; "max_tokens"; "system_prompt"; "stream"]
                                  passed |}
        end
  end.

(** Lines 151-163: the keyword arguments of the provider call. *)
Definition request_kwargs (self : t) (b : bound) : outcome pydict :=
  (_ <- slice_check (prompt b) ;;
   let kw :=
     Dict.update
       [ ("max_tokens", max_tokens b);
         ("messages", JArr [JObj [("role", JStr "user"); ("content", prompt b)]]);
         ("model", JStr (model self)) ]
       (Dict.without ["messages"; "system"] (kwargs b)) in
   kw <- (if truthy (system_prompt b)
          then (_ <- slice_check (system_prompt b) ;;
                Return (Dict.set "system" (system_prompt b) kw))
          else Return kw) ;;
   Return (if truthy (JArr (tools self))
           then Dict.set "tools" (JArr (tools self)) kw
           else kw))%outcome.

(** The [stream] flag and the keyword arguments a call ends up with. *)
Definition call_kwargs (self : t) (explicit starred : pydict)
  : outcome (json * pydict) :=
  (b <- bind_call explicit starred ;;
   kw <- request_kwargs self b ;;
   Return (stream b, kw))%outcome.

(** Lines 143-170. *)
Definition create_message (self : t) (explicit starred : pydict) : M sdk_result :=
  (call <- lift (call_kwargs self explicit starred) ;;
   let '(stream, kw) := call in
   if truthy stream then
     emit (ProviderStream kw) ;;;
     s <- lift (messages_stream kw) ;;
     ret (Manager s)
   else
     emit (ProviderCreate kw) ;;;
     m <- lift (messages_create kw) ;;
     ret (Created m))%M.

End Client.
End VertexClaudeClient.

(** ** The client of [client.py] *)

Module ClaudeClient.
Section Client.

(** The provider behind [self.client.messages], as for the client above. *)
Variable messages_create : pydict -> outcome Message.t.
Variable messages_stream : pydict -> outcome text_stream.

Record t : Type := {
  model : string;
  tools : list json
}.

(** [__init__]: [self.model = model], with its default; [self.tools = []]. *)
Definition init (model_arg : option string) : t :=
  {| model := match model_arg with
              | Some m => m
              | None => "claude-3-7-sonnet@20250219"
              end;
     tools := [] |}.

Definition add_tools (new_tools : list json) (self : t) : t :=
  {| model := model self; tools := new_tools |}.

(** [max_tokens: int = 1024] *)
Definition max_tokens_arg (max_tokens : option json) : json :=
  match max_tokens with Some v => v | None => JInt 1024 end.

(** Lines 47-55 and 64-72: the keyword arguments both methods build. *)
Definition request_kwargs (self : t) (prompt : json) (max_tokens : option json)
  (system_prompt : json) : pydict :=
  let kw :=
    [ ("max_tokens", max_tokens_arg max_tokens);
      ("messages", JArr [JObj [("role", JStr "user"); ("content", prompt)]]);
      ("model", JStr (model self)) ] in
  let kw := if truthy system_prompt then Dict.set "system" system_prompt kw else kw in
  if truthy (JArr (tools self)) then Dict.set "tools" (JArr (tools self)) kw else kw.

(** Lines 41-56. *)
Definition create_message (self : t) (prompt : json) (max_tokens : option json)
  (system_prompt : json) : M Message.t :=
  let kw := request_kwargs self prompt max_tokens system_prompt in
  (emit (ProviderCreate kw) ;;; lift (messages_create kw))%M.

(** [for text in stream.text_stream: yield MessageChunk(text)]: a chunk has
    the one attribute [text], by which the trace records it. *)
Fixpoint for_texts (texts : list string) : M unit :=
  match texts with
  | [] => ret tt
  | text :: rest => (emit (Yield text) ;;; for_texts rest)%M
  end.

(** Lines 58-77: the body of the generator, run when it is iterated. *)
Definition stream_message (self : t) (prompt : json) (max_tokens : option json)
  (system_prompt : json) : M unit :=
  let kw := request_kwargs self prompt max_tokens system_prompt in
  (emit (ProviderStream kw) ;;;
   s <- lift (messages_stream kw) ;;
   with_manager
     (for_texts (fragments s) ;;;
      match failure s with
      | Some e => raise e
      | None => ret tt
      end))%M.

End Client.
End ClaudeClient.

(** ** Responses of the handler *)

(** [jsonify(body), status] and the streamed [Response]: the latter holds
    the generator, which runs only when the server iterates the body,
    after the handler has returned. *)
Inductive response : Type :=
| jsonify (body : json) (status : nat)
| Response (generator : M unit) (mimetype : string) (headers : list (string * string)).

(** What the server sends for a response: the status line, then the chunks
    of a streamed body until the generator ends or raises. *)
Definition serve (r : response) : M unit :=
  match r with
  | jsonify _ _ => ret tt
  | Response generator _ _ => generator
  end.

Definition status_of (r : response) : nat :=
  match r with
  | jsonify _ status => status
  | Response _ _ _ => 200
  end.

(** ** Normalization of the first message (lines 203-210) *)

Inductive normalized : Type :=
| Prompt (content : string)
| InvalidFormat.

(** The generator expression
    [item['text'] for item in content if item.get('type') == 'text']. *)
Fixpoint text_items (items : list json) : outcome (list json) :=
  match items with
  | [] => Return []
  | item :: rest =>
      (d <- get_method item ;;
       if eq_str (Dict.get "type" d) "text" then
         match Dict.lookup "text" d with
         | None => Raise (KeyError "'text'")
         | Some t => (ts <- text_items rest ;; Return (t :: ts))
         end
       else text_items rest)%outcome
  end.

Definition normalize_content (first_message : json) : outcome normalized :=
  (fm <- get_method first_message ;;
   match Dict.get "content" fm with
   | JStr s => Return (Prompt s)
   | JArr items =>
       (ts <- text_items items ;;
        s <- join " " ts ;;
        Return (Prompt s))
   | _ => Return InvalidFormat
   end)%outcome.

(** ** The chat response, as the specification enumerates it *)

(** The fields of the non-streaming response in the specification's data
    model: an identifier, a role, content blocks, a stop reason, a stop
    sequence, a model identifier and a usage record. *)
Definition spec_response_fields : list string :=
  ["id"; "role"; "content"; "stop_reason"; "stop_sequence"; "model"; "usage"].

(** The fields the handler writes (lines 317-331). *)
Definition response_fields : list string :=
  ["id"; "content"; "model"; "role"; "stop_reason"; "stop_sequence"; "type"; "usage"].

Definition block_json (block : ContentBlock.t) (j : json) : Prop :=
  exists t, ContentBlock.text block = Some t
            /\ j = JObj [("type", JStr (ContentBlock.type block)); ("text", JStr t)].

(** ** Typed content parts, as the specification describes them *)

(** A typed part is an object; one tagged "text" carries a string under
    "text". *)
Definition typed_part (item : json) : bool :=
  match item with
  | JObj p =>
      if eq_str (Dict.get "type" p) "text" then
        match Dict.lookup "text" p with
        | Some (JStr _) => true
        | _ => false
        end
      else true
  | _ => false
  end.

(** An object that is not tagged "text". *)
Definition other_part (item : json) : bool :=
  match item with
  | JObj p => negb (eq_str (Dict.get "type" p) "text")
  | _ => false
  end.



Definition text_part (s : string) : json :=
  JObj [("type", JStr "text"); ("text", JStr s)].

Definition image_part : json :=
  JObj [("type", JStr "image"); ("source", JObj [("type", JStr "base64")])].

(** ** The event stream, as the specification describes it *)

(** The framing of one event: [event: <type>], a line feed, [data: <json>]
    and two line feeds. *)
Definition spec_frame (dumps : json -> string) (event_type : string)
  (payload : json) : string :=
  "event: " ++ event_type ++ String "010"%char ""
  ++ "data: " ++ dumps payload ++ String "010"%char "" ++ String "010"%char "".

(** The events of one streamed answer, written out: message_start with
    the usage placeholder 1/1, content_block_start with index 0 and an
    empty text, one content_block_delta per fragment with that fragment's
    text, content_block_stop with index 0, message_delta with the stop
    reason "end_turn", the concatenation of the fragments and the usage
    placeholder 100/150, and message_stop. *)
Definition spec_events (dumps : json -> string) (model message_id : string)
  (frags : list string) : list string :=
  ([ spec_frame dumps "message_start"
       (JObj [ ("type", JStr "message_start");
               ("message",
                JObj [ ("id", JStr message_id);
                       ("type", JStr "message");
                       ("role", JStr "assistant");
                       ("content", JArr []);
                       ("model", JStr model);
                       ("stop_reason", JNull);
                       ("stop_sequence", JNull);
                       ("usage", JObj [ ("input_tokens", JInt 1);
                                        ("output_tokens", JInt 1) ]) ]) ]);
     spec_frame dumps "content_block_start"
       (JObj [ ("type", JStr "content_block_start");
               ("index", JInt 0);
               ("content_block", JObj [("type", JStr "text"); ("text", JStr "")]) ]) ]
   ++ map (fun fragment =>
             spec_frame dumps "content_block_delta"
               (JObj [ ("type", JStr "content_block_delta");
                       ("index", JInt 0);
                       ("delta", JObj [ ("type", JStr "text_delta");
                                        ("text", JStr fragment) ]) ]))
        frags
   ++ [ spec_frame dumps "content_block_stop"
          (JObj [ ("type", JStr "content_block_stop"); ("index", JInt 0) ]);
        spec_frame dumps "message_delta"
          (JObj [ ("type", JStr "message_delta");
                  ("delta",
                   JObj [ ("stop_reason", JStr "end_turn");
                          ("stop_sequence", JNull);
                          ("content",
                           JArr [JObj [ ("type", JStr "text");
                                        ("text", JStr (String.concat "" frags)) ]]) ]);
                  ("usage", JObj [ ("input_tokens", JInt 100);
                                   ("output_tokens", JInt 150) ]) ]);
        spec_frame dumps "message_stop" (JObj [("type", JStr "message_stop")]) ])%list.

(** ** The reserved set, as the specification gives it *)

Definition spec_reserved : list string := ["messages"; "system"; "model"; "stream"].

(** ** Test doubles

    A provider that answers every call with a fixed message or a fixed
    sequence of fragments, one that fails, and a compact encoder of the
    values the events carry (floats are not printed by it). *)

Definition quote : string := String (ascii_of_nat 34) "".

Fixpoint stub_dumps (j : json) : string :=
  match j with
  | JNull => "null"
  | JBool true => "true"
  | JBool false => "false"
  | JInt z => Z_to_string z
  | JFloat _ => "0.0"
  | JStr s => quote ++ s ++ quote
  | JArr items => "[" ++ String.concat ", " (map stub_dumps items) ++ "]"
  | JObj fields =>
      "{" ++ (fix members (l : list (string * json)) : string :=
                match l with
                | [] => ""
                | (k, v) :: rest =>
                    quote ++ k ++ quote ++ ": " ++ stub_dumps v
                    ++ match rest with [] => "" | _ :: _ => ", " ++ members rest end
                end) fields ++ "}"
  end.

Definition stub_message : Message.t :=
  {| Message.id := "msg_01";
     Message.content :=
       [ {| ContentBlock.class_name := "TextBlock";
            ContentBlock.type := "text";
            ContentBlock.text := Some "Hello" |} ];
     Message.model := "claude-3-7-sonnet@20250219";
     Message.role := "assistant";
     Message.stop_reason := Some "end_turn";
     Message.stop_sequence := None;
     Message.type := "message";
     Message.usage :=
       {| Usage.input_tokens := 3;
          Usage.output_tokens := 5;
          Usage.cache_creation_input_tokens := Some 0%Z;
          Usage.cache_read_input_tokens := None |} |}.

Definition stub_create (_ : pydict) : outcome Message.t := Return stub_message.

Definition stub_stream (_ : pydict) : outcome text_stream :=
  Return {| fragments := ["Hel"; "lo"]; failure := None |}.

Definition failing_create (_ : pydict) : outcome Message.t :=
  Raise (ProviderError "upstream unavailable").

Definition failing_stream (_ : pydict) : outcome text_stream :=
  Raise (ProviderError "upstream unavailable").

(** Requests used in the examples. *)

Definition user_message (content : json) : json :=
  JObj [("role", JStr "user"); ("content", content)].

Definition haiku_request : pydict :=
  [ ("model", JStr "claude-3-haiku-20240307");
    ("max_tokens", JInt 256);
    ("temperature", JInt 1);
    ("system", JStr "Be brief.");
    ("messages", JArr [user_message (JStr "hi")]) ].

Definition streaming_request : pydict :=
  [ ("model", JStr "claude-3-7-sonnet-20250219");
    ("stream", JBool true);
    ("messages", JArr [user_message (JArr [text_part "a"; image_part; text_part "b"])]) ].

Definition long_request : pydict :=
  [ ("model", JStr "claude-3-haiku-20240307");
    ("max_tokens", JInt 256);
    ("temperature", JInt 1);
    ("system", JStr "Be brief.");
    ("messages",
     JArr [ user_message (JStr "hi");
            JObj [("role", JStr "assistant"); ("content", JStr "hello")];
            user_message (JStr "and then?") ]) ].

(** The keyword arguments the provider receives for [haiku_request] when
    the secondary identifier is "claude-fast". *)
Definition haiku_call : pydict :=
  [ ("max_tokens", JInt 256);
    ("messages", JArr [user_message (JStr "hi")]);
    ("model", JStr "claude-fast");
    ("temperature", JInt 1);
    ("system", JStr "Be brief.") ].

Definition streaming_call : pydict :=
  [ ("max_tokens", JInt 1024);
    ("messages", JArr [user_message (JStr "a b")]);
    ("model", JStr "claude-primary") ].

(** A stream that breaks after two fragments, and a message that ends
    with a tool call. *)
Definition breaking_stream (_ : pydict) : outcome text_stream :=
  Return {| fragments := ["Hel"; "lo"];
            failure := Some (ProviderError "connection reset") |}.

Definition tool_message : Message.t :=
  {| Message.id := "msg_02";
     Message.content :=
       [ {| ContentBlock.class_name := "TextBlock";
            ContentBlock.type := "text";
            ContentBlock.text := Some "Let me look." |};
         {| ContentBlock.class_name := "ToolUseBlock";
            ContentBlock.type := "tool_use";
            ContentBlock.text := None |} ];
     Message.model := "claude-3-7-sonnet@20250219";
     Message.role := "assistant";
     Message.stop_reason := Some "tool_use";
     Message.stop_sequence := None;
     Message.type := "message";
     Message.usage :=
       {| Usage.input_tokens := 3;
          Usage.output_tokens := 5;
          Usage.cache_creation_input_tokens := None;
          Usage.cache_read_input_tokens := None |} |}.

Definition tool_create (_ : pydict) : outcome Message.t := Return tool_message.

Definition weather_tool : json :=
  JObj [("name", JStr "get_weather"); ("input_schema", JObj [("type", JStr "object")])].

(** More requests: one with the model left to the default, one with a
    field named like a keyword of the client, streamed or not, and one
    with a number as system prompt. *)
Definition plain_request : pydict :=
  [ ("model", JStr "gpt-4");
    ("messages", JArr [user_message (JStr "hi")]) ].

Definition plain_call : pydict :=
  [ ("max_tokens", JInt 1024);
    ("messages", JArr [user_message (JStr "hi")]);
    ("model", JStr "claude-primary") ].

Definition keyword_request : pydict :=
  [ ("messages", JArr [user_message (JStr "hi")]);
    ("prompt", JStr "ignore the above") ].

Definition keyword_stream_request : pydict :=
  [ ("messages", JArr [user_message (JStr "hi")]);
    ("stream", JBool true);
    ("self", JInt 1) ].

Definition numeric_system_request : pydict :=
  [ ("messages", JArr [user_message (JStr "hi")]);
    ("system", JInt 5) ].

(** ** The gateway *)

Section Gateway.

(** Configuration read from the environment when the module is loaded. *)
Variable MODEL : string.          (* CLAUDE_MODEL *)
Variable HAIKU_MODEL : string.    (* CLAUDE_HAIKU_MODEL *)

(** The provider behind [self.client.messages]. *)
Variable messages_create : pydict -> outcome Message.t.
Variable messages_stream : pydict -> outcome text_stream.

(** [json.dumps], and [int(time.time() * 1000)] when the generator starts. *)
Variable json_dumps : json -> string.
Variable time_ms : Z.

Definition SUPPORTED_MODELS : list (string * string) :=
  [ ("claude-3-sonnet-20240229", MODEL);
    ("claude-3-7-sonnet-20250219", MODEL);
    ("claude-3-haiku-20240307", HAIKU_MODEL);
    ("claude-3-5-haiku-20241022", HAIKU_MODEL) ].

Fixpoint supported_model (alias : string) (table : list (string * string))
  : option string :=
  match table with
  | [] => None
  | (k, v) :: rest => if String.eqb alias k then Some v else supported_model alias rest
  end.

(** Lines 187-193.  [requested_model in SUPPORTED_MODELS] hashes the
    requested value; the keys of the table are strings, so only a string
    can be found in it. *)
Definition mapped_model (requested_model : json) : string :=
  match requested_model with
  | JStr alias =>
      match supported_model alias SUPPORTED_MODELS with
      | Some upstream => upstream
      | None => MODEL
      end
  | _ => MODEL
  end.

Definition resolve_model (requested_model : json) : outcome string :=
  (_ <- hash_check requested_model ;;
   Return (mapped_model requested_model))%outcome.

(** [claude_client = VertexClaudeClient()] *)
Definition claude_client : VertexClaudeClient.t := VertexClaudeClient.init MODEL None.

Definition client_create_message :=
  VertexClaudeClient.create_message messages_create messages_stream.

(** The keywords written out at the two places the handler calls the
    client: lines 310-314 and lines 249-254. *)
Definition explicit_create (content : string) (d : pydict) : pydict :=
  [ ("prompt", JStr content); ("system_prompt", Dict.get "system" d) ].

Definition explicit_stream (content : string) (d : pydict) : pydict :=
  [ ("prompt", JStr content); ("system_prompt", Dict.get "system" d);
    ("stream", JBool true) ].

(** *** The streaming generator (lines 217-298) *)

Definition sse (event_type : string) (payload : json) : string :=
  "event: " ++ event_type ++ newline ++ "data: " ++ json_dumps payload
  ++ newline ++ newline.

Definition message_start (message_id : string) : json :=
  JObj [ ("type", JStr "message_start");
         ("message",
          JObj [ ("id", JStr message_id);
                 ("type", JStr "message");
                 ("role", JStr "assistant");
                 ("content", JArr []);
                 ("model", JStr MODEL);
                 ("stop_reason", JNull);
                 ("stop_sequence", JNull);
                 ("usage", JObj [("input_tokens", JInt 1); ("output_tokens", JInt 1)]) ]) ].

Definition block_start (content_block_index : Z) : json :=
  JObj [ ("type", JStr "content_block_start");
         ("index", JInt content_block_index);
         ("content_block", JObj [("type", JStr "text"); ("text", JStr "")]) ].

Definition delta (content_block_index : Z) (chunk : string) : json :=
  JObj [ ("type", JStr "content_block_delta");
         ("index", JInt content_block_index);
         ("delta", JObj [("type", JStr "text_delta"); ("text", JStr chunk)]) ].

Definition block_stop (content_block_index : Z) : json :=
  JObj [ ("type", JStr "content_block_stop");
         ("index", JInt content_block_index) ].

Definition message_delta (accumulated_text : string) : json :=
  JObj [ ("type", JStr "message_delta");
         ("delta",
          JObj [ ("stop_reason", JStr "end_turn");
                 ("stop_sequence", JNull);
                 ("content",
                  JArr [JObj [("type", JStr "text"); ("text", JStr accumulated_text)]]) ]);
         ("usage", JObj [("input_tokens", JInt 100); ("output_tokens", JInt 150)]) ].

Definition message_stop : json := JObj [("type", JStr "message_stop")].

(** [for chunk in stream.text_stream: ...] over the fragments that arrive. *)
Fixpoint for_chunks (content_block_index : Z) (chunks : list string)
  (accumulated_text : string) : M string :=
  match chunks with
  | [] => ret accumulated_text
  | chunk :: rest =>
      let accumulated_text := accumulated_text ++ chunk in
      (emit (Yield (sse "content_block_delta" (delta content_block_index chunk))) ;;;
       for_chunks content_block_index rest accumulated_text)%M
  end.

Definition consume (content_block_index : Z) (r : sdk_result) : M string :=
  match r with
  | Manager s =>
      with_manager
        (accumulated_text <- for_chunks content_block_index (fragments s) "" ;;
         match failure s with
         | Some e => raise e
         | None => ret accumulated_text
         end)%M
  | Created _ => raise (AttributeError "Message" "__enter__")
  end.

Definition generate (client : VertexClaudeClient.t) (content : string)
  (data kwargs : pydict) : M unit :=
  let message_id := "msg_" ++ Z_to_string time_ms in
  let content_block_index := 0%Z in
  (emit (Yield (sse "message_start" (message_start message_id))) ;;;
   emit (Yield (sse "content_block_start" (block_start content_block_index))) ;;;
   stream_manager <- client_create_message client
                       (explicit_stream content data) kwargs ;;
   accumulated_text <- consume content_block_index stream_manager ;;
   emit (Yield (sse "content_block_stop" (block_stop content_block_index))) ;;;
   emit (Yield (sse "message_delta" (message_delta accumulated_text))) ;;;
   emit (Yield (sse "message_stop" message_stop)))%M.

(** *** The non-streaming response (lines 317-331) *)

Fixpoint content_blocks (blocks : list ContentBlock.t) : outcome (list json) :=
  match blocks with
  | [] => Return []
  | block :: rest =>
      match ContentBlock.text block with
      | None => Raise (AttributeError (ContentBlock.class_name block) "text")
      | Some t =>
          (bs <- content_blocks rest ;;
           Return (JObj [ ("type", JStr (ContentBlock.type block));
                          ("text", JStr t) ] :: bs))%outcome
      end
  end.

Definition usage_json (u : Usage.t) : json :=
  JObj [ ("input_tokens", JInt (Usage.input_tokens u));
         ("output_tokens", JInt (Usage.output_tokens u));
         ("cache_creation_input_tokens", opt_int (Usage.cache_creation_input_tokens u));
         ("cache_read_input_tokens", opt_int (Usage.cache_read_input_tokens u)) ].

Definition response_json (r : sdk_result) : outcome json :=
  match r with
  | Created message =>
      (blocks <- content_blocks (Message.content message) ;;
       Return (JObj [ ("id", JStr (Message.id message));
                      ("content", JArr blocks);
                      ("model", JStr (Message.model message));
                      ("role", JStr (Message.role message));
                      ("stop_reason", opt_str (Message.stop_reason message));
                      ("stop_sequence", opt_str (Message.stop_sequence message));
                      ("type", JStr (Message.type message));
                      ("usage", usage_json (Message.usage message)) ]))%outcome
  | Manager _ => Raise (AttributeError "MessageStreamManager" "id")
  end.

(** *** The handler of POST /v1/messages (lines 177-338)

    [client] is the state of the module's [claude_client] when the
    request arrives. *)

Definition error_body (msg : string) : json := JObj [("error", JStr msg)].

(** Lines 212-334: the passthrough parameters, then the provider call and
    the response, streamed or not. *)
Definition passthrough (d : pydict) : pydict :=
  Dict.without ["messages"; "system"; "stream"] d.

Definition forward (client : VertexClaudeClient.t) (d : pydict) (stream : json)
  (content : string) : M response :=
  let kwargs := passthrough d in
  if truthy stream then
    ret (Response (generate client content d kwargs)
           "text/event-stream"
           [("Cache-Control", "no-cache"); ("Connection", "keep-alive")])
  else
    (message <- client_create_message client (explicit_create content d) kwargs ;;
     body <- lift (response_json message) ;;
     ret (jsonify body 200))%M.

(** Lines 195-210: [d] is [data] once [data['model']] has been stored. *)
Definition handle_messages (client : VertexClaudeClient.t) (d : pydict)
  : M response :=
  let stream := Dict.get_default "stream" (JBool false) d in
  let messages := Dict.get_default "messages" (JArr []) d in
  if negb (truthy messages) then
    ret (jsonify (error_body "No messages provided") 400)
  else
    (first_message <- lift (getitem0 messages) ;;
     n <- lift (normalize_content first_message) ;;
     match n with
     | InvalidFormat =>
         ret (jsonify (error_body "Invalid message content format") 400)
     | Prompt content => forward client d stream content
     end)%M.

(** The body of the [try] (lines 179-334); [data] is [request.json]. *)
Definition create_message_try (client : VertexClaudeClient.t) (data : json)
  : M response :=
  if negb (truthy data) then ret (jsonify (error_body "No JSON data provided") 400)
  else
    (d <- lift (get_method data) ;;
     let requested_model := Dict.get "model" d in
     upstream <- lift (resolve_model requested_model) ;;
     handle_messages client (Dict.set "model" (JStr upstream) d))%M.

(** [except Exception as e: return jsonify({'error': str(e)}), 500] *)
Definition create_message (client : VertexClaudeClient.t) (data : json)
  : M response :=
  try_except (create_message_try client data)
    (fun e => ret (jsonify (error_body (str e)) 500)).

(** A request as the server sees it through: the handler, then the
    iteration of the body when the response is streamed. *)
Definition handle_request (client : VertexClaudeClient.t) (data : json) : M unit :=
  (r <- create_message client data ;; serve r)%M.

(** *** Notions the properties are stated with *)

(** A value that can be hashed: anything but a list or a dict. *)
Definition scalar (o : json) : Prop :=
  match o with
  | JArr _ | JObj _ => False
  | _ => True
  end.

(** The events of the loop over the fragments. *)
Definition delta_events (idx : Z) (chunks : list string) : trace :=
  map (fun f => Yield (sse "content_block_delta" (delta idx f))) chunks.

(** The events before the provider call and after the loop. *)
Definition stream_head : trace :=
  [ Yield (sse "message_start" (message_start ("msg_" ++ Z_to_string time_ms)));
    Yield (sse "content_block_start" (block_start 0)) ].

Definition stream_tail (frags : list string) : trace :=
  [ Yield (sse "content_block_stop" (block_stop 0));
    Yield (sse "message_delta" (message_delta (String.concat "" frags)));
    Yield (sse "message_stop" message_stop) ].

(** Two requests that differ at most in their [messages] field. *)
Definition same_but_messages (d1 d2 : pydict) : Prop :=
  Dict.without ["messages"] d1 = Dict.without ["messages"] d2.

(** What a request has gone through when the handler forwards it. *)
Definition forwarded (data : json) (d : pydict) (content : string) : Prop :=
  exists (d0 : pydict) (upstream : string) (first : json),
    data = JObj d0
    /\ truthy data = true
    /\ resolve_model (Dict.get "model" d0) = Return upstream
    /\ d = Dict.set "model" (JStr upstream) d0
    /\ truthy (Dict.get_default "messages" (JArr []) d) = true
    /\ getitem0 (Dict.get_default "messages" (JArr []) d) = Return first
    /\ normalize_content first = Return (Prompt content).

(** The parameters of [create_message] that a keyword can bind. *)
Definition bound_names : list string :=
  ["prompt"; "max_tokens"; "system_prompt"; "stream"].

(** The entries of the dict display of lines 152-155, before the
    passthrough parameters are stored. *)
Definition base_kwargs (client : VertexClaudeClient.t) (b : VertexClaudeClient.bound)
  : pydict :=
  [ ("max_tokens", VertexClaudeClient.max_tokens b);
    ("messages",
     JArr [JObj [("role", JStr "user"); ("content", VertexClaudeClient.prompt b)]]);
    ("model", JStr (VertexClaudeClient.model client)) ].

(** A request object the handler takes as far as the client call: its
    model can be hashed, and its first message normalizes to [content]. *)
Definition accepted (d0 : pydict) (content : string) : Prop :=
  scalar (Dict.get "model" d0)
  /\ exists first rest,
       Dict.lookup "messages" d0 = Some (JArr (first :: rest))
       /\ normalize_content first = Return (Prompt content).

(** [data] once [data['model']] has been stored (lines 187-193). *)
Definition resolved (d0 : pydict) : pydict :=
  Dict.set "model" (JStr (mapped_model (Dict.get "model" d0))) d0.

Definition is_enter (ev : event) : bool :=
  match ev with StreamEnter => true | _ => false end.

Definition is_exit (ev : event) : bool :=
  match ev with StreamExit => true | _ => false end.

Definition stream_enters (tr : trace) : nat := length (filter is_enter tr).

Definition stream_exits (tr : trace) : nat := length (filter is_exit tr).

(** The client of [client.py] with the model and the tools of [client]. *)
Definition plain_client (client : VertexClaudeClient.t) : ClaudeClient.t :=
  {| ClaudeClient.model := VertexClaudeClient.model client;
     ClaudeClient.tools := VertexClaudeClient.tools client |}.

(** The keywords of a call [create_message(prompt, max_tokens, system_prompt)]
    with no other argument, [max_tokens] given or left out. *)
Definition plain_keywords (prompt : string) (max_tokens : option json)
  (system_prompt : json) : pydict :=
  (("prompt", JStr prompt)
   :: match max_tokens with Some v => [("max_tokens", v)] | None => [] end
   ++ [("system_prompt", system_prompt)])%list.

Ltac eqb_false :=
  repeat match goal with
         | H : ?a <> ?b |- context [String.eqb ?a ?b] =>
             rewrite (proj2 (String.eqb_neq a b) H)
         end.

(** ** Dictionaries: lookup after the operations of the handler *)

Lemma str_in_cons (k a : string) (names : list string) :
  str_in k (a :: names) = (String.eqb k a || str_in k names)%bool.
Proof. reflexivity. Qed.

Lemma lookup_set_eq (k : string) (v : json) (d : pydict) :
  Dict.lookup k (Dict.set k v d) = Some v.
Proof.
  induction d as [| [k' v'] rest IH]; simpl.
  - now rewrite String.eqb_refl.
  - destruct (String.eqb k k') eqn:E; simpl; rewrite E; auto.
Qed.

Lemma lookup_set_ne (k k' : string) (v : json) (d : pydict) :
  k <> k' -> Dict.lookup k (Dict.set k' v d) = Dict.lookup k d.
Proof.
  intros Hne. induction d as [| [k0 v0] rest IH]; simpl.
  - apply String.eqb_neq in Hne. now rewrite Hne.
  - destruct (String.eqb k' k0) eqn:E; simpl.
    + apply String.eqb_eq in E. subst k0.
      apply String.eqb_neq in Hne. now rewrite Hne.
    + now rewrite IH.
Qed.

Lemma lookup_without (k : string) (names : list string) (d : pydict) :
  Dict.lookup k (Dict.without names d)
  = if str_in k names then None else Dict.lookup k d.
Proof.
  unfold Dict.without.
  induction d as [| [k' v'] rest IH]; simpl.
  - now destruct (str_in k names).
  - destruct (str_in k' names) eqn:Hin; simpl.
    + rewrite IH. destruct (String.eqb k k') eqn:E; auto.
      apply String.eqb_eq in E. subst k'. now rewrite Hin.
    + rewrite IH. destruct (String.eqb k k') eqn:E; auto.
      apply String.eqb_eq in E. subst k'. now rewrite Hin.
Qed.

Lemma lookup_not_key (k : string) (d : pydict) :
  ~ In k (Dict.keys d) -> Dict.lookup k d = None.
Proof.
  induction d as [| [k' v'] rest IH]; simpl; auto.
  intros Hn. destruct (String.eqb k k') eqn:E.
  - apply String.eqb_eq in E. subst. tauto.
  - apply IH. tauto.
Qed.

(** Storing the entries of a dictionary with distinct keys one by one:
    the stored value of a key is its value in [extra], if it has one. *)
Lemma lookup_update (k : string) (extra base : pydict) :
  NoDup (Dict.keys extra) ->
  Dict.lookup k (Dict.update base extra)
  = match Dict.lookup k extra with
    | Some v => Some v
    | None => Dict.lookup k base
    end.
Proof.
  unfold Dict.update. revert base.
  induction extra as [| [k' v'] rest IH]; simpl; intros base Hnd; auto.
  inversion Hnd as [| ? ? Hnotin Hnd']; subst.
  rewrite IH by assumption.
  destruct (String.eqb k k') eqn:E.
  - apply String.eqb_eq in E. subst k'.
    rewrite (lookup_not_key k rest Hnotin). apply lookup_set_eq.
  - destruct (Dict.lookup k rest); auto.
    apply lookup_set_ne. now apply String.eqb_neq.
Qed.

Lemma keys_without_incl (names : list string) (d : pydict) (k : string) :
  In k (Dict.keys (Dict.without names d)) -> In k (Dict.keys d).
Proof.
  unfold Dict.without, Dict.keys. rewrite !in_map_iff.
  intros [kv [Hk Hin]]. apply filter_In in Hin. exists kv. tauto.
Qed.

Lemma NoDup_keys_without (names : list string) (d : pydict) :
  NoDup (Dict.keys d) -> NoDup (Dict.keys (Dict.without names d)).
Proof.
  induction d as [| [k v] rest IH]; simpl; intros Hnd; [constructor |].
  inversion Hnd as [| ? ? Hnotin Hnd']; subst.
  destruct (str_in k names); simpl; auto.
  constructor; auto.
  intros Hin. apply Hnotin. eapply keys_without_incl. exact Hin.
Qed.

Lemma keys_set_incl (k k0 : string) (v : json) (d : pydict) :
  In k0 (Dict.keys (Dict.set k v d)) -> k0 = k \/ In k0 (Dict.keys d).
Proof.
  induction d as [| [k' v'] rest IH]; simpl.
  - intros [H | []]; auto.
  - destruct (String.eqb k k') eqn:E; simpl; intros [H | H]; auto.
    destruct (IH H); auto.
Qed.

Lemma NoDup_keys_set (k : string) (v : json) (d : pydict) :
  NoDup (Dict.keys d) -> NoDup (Dict.keys (Dict.set k v d)).
Proof.
  induction d as [| [k' v'] rest IH]; simpl; intros Hnd.
  - constructor; [intros [] | constructor].
  - inversion Hnd as [| ? ? Hnotin Hnd']; subst.
    destruct (String.eqb k k') eqn:E; simpl.
    + constructor; assumption.
    + constructor; auto.
      intros Hin. apply keys_set_incl in Hin. destruct Hin as [-> | Hin]; auto.
      now rewrite String.eqb_refl in E.
Qed.

Lemma first_key_in_none (names : list string) (d : pydict) (k : string) :
  Dict.first_key_in names d = None -> str_in k names = true ->
  Dict.lookup k d = None.
Proof.
  unfold Dict.first_key_in. intros Hnone Hin.
  apply lookup_not_key. intros Hkey.
  apply (find_none _ _ Hnone) in Hkey. congruence.
Qed.

Lemma mem_false (k : string) (d : pydict) :
  Dict.mem k d = false -> Dict.lookup k d = None.
Proof. unfold Dict.mem. now destruct (Dict.lookup k d). Qed.

Lemma get_default_lookup (k : string) (default v : json) (d : pydict) :
  Dict.lookup k d = Some v -> Dict.get_default k default d = v.
Proof. unfold Dict.get_default. now intros ->. Qed.

Lemma hash_check_scalar (o : json) : scalar o -> hash_check o = Return tt.
Proof. destruct o; simpl; tauto. Qed.

Lemma resolve_model_scalar (o : json) :
  scalar o -> resolve_model o = Return (mapped_model o).
Proof. intros H. unfold resolve_model. now rewrite hash_check_scalar. Qed.

Lemma truthy_lookup (k : string) (v : json) (d : pydict) :
  Dict.lookup k d = Some v -> truthy (JObj d) = true.
Proof. destruct d; simpl; [discriminate | reflexivity]. Qed.

(** The handler up to the validation of [messages], for a request object
    whose model can be hashed. *)
Lemma create_message_try_resolved (client : VertexClaudeClient.t) (d : pydict) :
  d <> [] -> scalar (Dict.get "model" d) ->
  create_message_try client (JObj d)
  = handle_messages client
      (Dict.set "model" (JStr (mapped_model (Dict.get "model" d))) d).
Proof.
  intros Hne Hs. unfold create_message_try.
  replace (truthy (JObj d)) with true by (destruct d; [congruence | reflexivity]).
  unfold bind, lift. cbn [negb get_method].
  rewrite (resolve_model_scalar _ Hs). reflexivity.
Qed.

Lemma handle_messages_first (client : VertexClaudeClient.t) (d : pydict)
  (first : json) (rest : list json) :
  Dict.lookup "messages" d = Some (JArr (first :: rest)) ->
  handle_messages client d
  = (n <- lift (normalize_content first) ;;
     match n with
     | InvalidFormat =>
         ret (jsonify (error_body "Invalid message content format") 400)
     | Prompt content =>
         forward client d (Dict.get_default "stream" (JBool false) d) content
     end)%M.
Proof.
  intros Hm. unfold handle_messages.
  rewrite (get_default_lookup _ _ _ _ Hm). reflexivity.
Qed.

Lemma lookup_messages_resolved (d : pydict) (upstream v : json) :
  Dict.lookup "messages" d = Some v ->
  Dict.lookup "messages" (Dict.set "model" upstream d) = Some v.
Proof. intros H. rewrite lookup_set_ne; [assumption | discriminate]. Qed.

(** ** Model alias resolution *)

(** C3.  Each of the four legacy aliases resolves to the primary or the
    secondary identifier as the table says; any other value that can be
    hashed, and an absent model field, resolve to the primary identifier
    without an exception; the handler then goes on to the messages with
    the resolved identifier stored in the request. *)
Theorem model_alias_resolution :
  resolve_model (JStr "claude-3-sonnet-20240229") = Return MODEL
  /\ resolve_model (JStr "claude-3-7-sonnet-20250219") = Return MODEL
  /\ resolve_model (JStr "claude-3-haiku-20240307") = Return HAIKU_MODEL
  /\ resolve_model (JStr "claude-3-5-haiku-20241022") = Return HAIKU_MODEL
  /\ (forall requested : json,
        scalar requested ->
        (forall alias, requested = JStr alias ->
                       ~ In alias (map fst SUPPORTED_MODELS)) ->
        resolve_model requested = Return MODEL)
  /\ (forall d : pydict,
        Dict.lookup "model" d = None ->
        resolve_model (Dict.get "model" d) = Return MODEL)
  /\ (forall (client : VertexClaudeClient.t) (d : pydict),
        d <> [] -> scalar (Dict.get "model" d) ->
        exists upstream,
          resolve_model (Dict.get "model" d) = Return upstream
          /\ create_message_try client (JObj d)
             = handle_messages client (Dict.set "model" (JStr upstream) d)).
Proof.
  repeat split; try reflexivity.
  - intros requested Hs Hother.
    rewrite (resolve_model_scalar _ Hs). f_equal.
    destruct requested as [| | | | alias | |]; try reflexivity.
    specialize (Hother alias eq_refl). simpl in Hother.
    unfold mapped_model. simpl.
    repeat match goal with
           | |- context [String.eqb alias ?k] =>
               destruct (String.eqb alias k) eqn:?E;
               [apply String.eqb_eq in E; subst alias; exfalso; tauto | clear E]
           end.
    reflexivity.
  - intros d Hnone. unfold Dict.get, Dict.get_default. now rewrite Hnone.
  - intros client d Hne Hs. eexists. split.
    + apply resolve_model_scalar, Hs.
    + now apply create_message_try_resolved.
Qed.

(** ** Validation *)

(** C6 (amended).  A request object whose [messages] array is empty never
    reaches the provider: the trace is left as it was.  It is answered
    with HTTP 400 "No messages provided" when its [model] is absent or can
    be hashed, and with HTTP 500 "unhashable type: ..." when its [model] is
    a list or an object, since the table lookup comes first. *)
Theorem empty_messages_400 (client : VertexClaudeClient.t) (d : pydict)
  (tr : trace) :
  Dict.lookup "messages" d = Some (JArr []) ->
  (scalar (Dict.get "model" d) ->
   create_message client (JObj d) tr
   = (Return (jsonify (error_body "No messages provided") 400), tr))
  /\ (~ scalar (Dict.get "model" d) ->
      create_message client (JObj d) tr
      = (Return (jsonify (error_body ("unhashable type: '"
                                      ++ type_name (Dict.get "model" d) ++ "'")) 500),
         tr)).
Proof.
  intros Hm. split.
  - intros Hs. unfold create_message, try_except.
    rewrite create_message_try_resolved; [| intros ->; discriminate | assumption].
    unfold handle_messages.
    rewrite (get_default_lookup "messages" _ _ _ (lookup_messages_resolved _ _ _ Hm)).
    reflexivity.
  - intros Hns. unfold create_message, try_except, create_message_try.
    rewrite (truthy_lookup _ _ _ Hm). cbn [negb get_method]. unfold bind, lift.
    destruct (Dict.get "model" d); cbn in Hns; try (now destruct Hns); reflexivity.
Qed.

(** ** Content normalization *)



Lemma text_items_other (items : list json) :
  forallb other_part items = true -> text_items items = Return [].
Proof.
  induction items as [| item rest IH]; [reflexivity |].
  cbn [forallb]. intros H. apply andb_true_iff in H. destruct H as [Hitem Hrest].
  destruct item as [| | | | | | p]; try discriminate.
  cbn [text_items get_method obind]. unfold other_part in Hitem.
  destruct (eq_str (Dict.get "type" p) "text"); [discriminate | auto].
Qed.

Lemma text_items_missing_text (items : list json) (part : pydict) :
  In (JObj part) items ->
  eq_str (Dict.get "type" part) "text" = true ->
  Dict.lookup "text" part = None ->
  exists e, text_items items = Raise e.
Proof.
  intros Hin Htag Hno.
  induction items as [| item rest IH]; [destruct Hin |].
  cbn [text_items].
  destruct (get_method item) as [p | e] eqn:Hget; cbn [obind]; [| eauto].
  destruct Hin as [-> | Hin].
  - cbn in Hget. injection Hget as <-. rewrite Htag, Hno. eauto.
  - destruct (IH Hin) as [e He]. rewrite He.
    destruct (eq_str (Dict.get "type" p) "text"); [| eauto].
    destruct (Dict.lookup "text" p); cbn [obind]; eauto.
Qed.

Lemma normalize_content_list (fm : pydict) (items : list json) :
  Dict.lookup "content" fm = Some (JArr items) ->
  normalize_content (JObj fm)
  = (ts <- text_items items ;; s <- join " " ts ;; Return (Prompt s))%outcome.
Proof.
  intros Hc. unfold normalize_content. cbn [get_method obind].
  unfold Dict.get. now rewrite (get_default_lookup _ _ _ _ Hc).
Qed.

(** C7 (amended).  A request object whose [model] is absent or can be
    hashed, and whose [messages] is a list that starts with an object
    whose content is neither a string nor a list (absent or null
    included), is answered with HTTP 400 and the message "Invalid message
    content format", and the provider is not called; a content that is a
    list is never refused as an invalid format, whatever it holds. *)
Theorem invalid_content_400 :
  (forall (client : VertexClaudeClient.t) (d fm : pydict) (rest : list json)
          (tr : trace),
      Dict.lookup "messages" d = Some (JArr (JObj fm :: rest)) ->
      scalar (Dict.get "model" d) ->
      is_str (Dict.get "content" fm) = false ->
      is_list (Dict.get "content" fm) = false ->
      create_message client (JObj d) tr
      = (Return (jsonify (error_body "Invalid message content format") 400), tr))
  /\ (forall (fm : pydict) (items : list json),
        Dict.lookup "content" fm = Some (JArr items) ->
        normalize_content (JObj fm) <> Return InvalidFormat).
Proof.
  split.
  - intros client d fm rest tr Hm Hs Hstr Hlist. unfold create_message, try_except.
    rewrite create_message_try_resolved; [| intros ->; discriminate | assumption].
    rewrite (handle_messages_first _ _ _ _ (lookup_messages_resolved _ _ _ Hm)).
    unfold bind, lift, normalize_content. simpl get_method. cbv beta iota.
    unfold obind.
    destruct (Dict.get "content" fm); simpl in *; try discriminate; reflexivity.
  - intros fm items Hc. rewrite (normalize_content_list _ _ Hc).
    destruct (text_items items) as [ts | e]; cbn [obind]; [| discriminate].
    destruct (join " " ts); cbn [obind]; discriminate.
Qed.


(** C10.  A list content with a part tagged "text" that has no "text"
    field makes normalization raise, and the request is answered with HTTP
    500 and the exception's text, whatever else it holds; a list of parts
    none of which is tagged "text" yields the empty prompt, with which the
    handler goes on. *)
Theorem text_part_without_text_500 :
  (forall (client : VertexClaudeClient.t) (d fm : pydict) (rest items : list json)
          (part : pydict) (tr : trace),
      Dict.lookup "messages" d = Some (JArr (JObj fm :: rest)) ->
      Dict.lookup "content" fm = Some (JArr items) ->
      In (JObj part) items ->
      eq_str (Dict.get "type" part) "text" = true ->
      Dict.lookup "text" part = None ->
      (exists e, normalize_content (JObj fm) = Raise e)
      /\ (exists e, create_message client (JObj d) tr
                    = (Return (jsonify (error_body (str e)) 500), tr)))
  /\ (forall (client : VertexClaudeClient.t) (d fm : pydict) (rest items : list json),
        Dict.lookup "messages" d = Some (JArr (JObj fm :: rest)) ->
        Dict.lookup "content" fm = Some (JArr items) ->
        forallb other_part items = true ->
        normalize_content (JObj fm) = Return (Prompt "")
        /\ handle_messages client d
           = forward client d (Dict.get_default "stream" (JBool false) d) "").
Proof.
  split.
  - intros client d fm rest items part tr Hm Hc Hin Htag Hno.
    assert (Hn : exists e, normalize_content (JObj fm) = Raise e).
    { destruct (text_items_missing_text _ _ Hin Htag Hno) as [e He].
      exists e. rewrite (normalize_content_list _ _ Hc), He. reflexivity. }
    split; [exact Hn |]. destruct Hn as [e He].
    unfold create_message, try_except, create_message_try.
    rewrite (truthy_lookup _ _ _ Hm). cbn [negb get_method]. unfold bind at 1, lift at 1.
    unfold bind at 1, lift at 1.
    destruct (resolve_model (Dict.get "model" d)) as [upstream | e'].
    + rewrite (handle_messages_first _ _ _ _ (lookup_messages_resolved _ _ _ Hm)).
      unfold bind, lift. rewrite He. exists e. reflexivity.
    + exists e'. reflexivity.
  - intros client d fm rest items Hm Hc Hparts.
    assert (Hn : normalize_content (JObj fm) = Return (Prompt "")).
    { rewrite (normalize_content_list _ _ Hc), (text_items_other _ Hparts).
      reflexivity. }
    split; [exact Hn |].
    rewrite (handle_messages_first _ _ _ _ Hm). unfold bind, lift.
    rewrite Hn. reflexivity.
Qed.

(** ** The client call *)

Lemma client_create_message_run (client : VertexClaudeClient.t)
  (explicit starred : pydict) (tr : trace) :
  client_create_message client explicit starred tr
  = match VertexClaudeClient.call_kwargs client explicit starred with
    | Raise e => (Raise e, tr)
    | Return (stream, kw) =>
        if truthy stream then
          (match messages_stream kw with
           | Return s => Return (Manager s)
           | Raise e => Raise e
           end, (tr ++ [ProviderStream kw])%list)
        else
          (match messages_create kw with
           | Return m => Return (Created m)
           | Raise e => Raise e
           end, (tr ++ [ProviderCreate kw])%list)
    end.
Proof.
  unfold client_create_message, VertexClaudeClient.create_message, bind, lift.
  destruct (VertexClaudeClient.call_kwargs client explicit starred) as [[stream kw] | e];
    [| reflexivity].
  destruct (truthy stream); unfold emit, ret.
  - now destruct (messages_stream kw).
  - now destruct (messages_create kw).
Qed.

(** A call written with [stream=True] is bound with that flag. *)
Lemma call_kwargs_stream_flag (client : VertexClaudeClient.t) (content : string)
  (d starred : pydict) (stream : json) (kw : pydict) :
  VertexClaudeClient.call_kwargs client (explicit_stream content d) starred
  = Return (stream, kw) ->
  stream = JBool true.
Proof.
  unfold VertexClaudeClient.call_kwargs, VertexClaudeClient.bind_call.
  destruct (Dict.first_key_in _ starred); [discriminate |].
  destruct (Dict.mem "self" _); [discriminate |].
  cbn [explicit_stream app Dict.lookup String.eqb Ascii.eqb Bool.eqb obind
       Dict.get_default VertexClaudeClient.stream].
  destruct (VertexClaudeClient.request_kwargs _ _); cbn [obind]; congruence.
Qed.

(** ** The streaming generator *)

Lemma string_app_nil_r (s : string) : s ++ "" = s.
Proof. induction s as [| c s IH]; simpl; congruence. Qed.

Lemma string_app_assoc (a b c : string) : (a ++ b) ++ c = a ++ (b ++ c).
Proof. induction a as [| x a IH]; simpl; congruence. Qed.

Lemma concat_empty_cons (c : string) (rest : list string) :
  String.concat "" (c :: rest) = c ++ String.concat "" rest.
Proof.
  destruct rest as [| c' rest']; simpl; [now rewrite string_app_nil_r | reflexivity].
Qed.

Lemma for_chunks_run (idx : Z) (chunks : list string) (acc : string) (tr : trace) :
  for_chunks idx chunks acc tr
  = (Return (acc ++ String.concat "" chunks), (tr ++ delta_events idx chunks)%list).
Proof.
  revert acc tr. induction chunks as [| c rest IH]; intros acc tr.
  - simpl. now rewrite string_app_nil_r, app_nil_r.
  - cbn [for_chunks]. unfold bind, emit. rewrite IH.
    rewrite concat_empty_cons, string_app_assoc.
    unfold delta_events. cbn [map]. now rewrite <- app_assoc.
Qed.

Lemma yields_app (t1 t2 : trace) : yields (t1 ++ t2)%list = (yields t1 ++ yields t2)%list.
Proof. unfold yields. apply flat_map_app. Qed.

Lemma yields_delta_events (idx : Z) (chunks : list string) :
  yields (delta_events idx chunks)
  = map (fun f => sse "content_block_delta" (delta idx f)) chunks.
Proof. induction chunks as [| c rest IH]; simpl; congruence. Qed.

(** C1.  When the client call is accepted and the provider's stream yields
    the fragments [frags] and ends, the generator ends normally and what it
    has yielded is, written out in [spec_events]: message_start,
    content_block_start (index 0, empty text), one content_block_delta per
    fragment in order with that fragment's text, content_block_stop (index
    0), message_delta (stop_reason "end_turn", the concatenation of the
    fragments) and message_stop, each framed as
    [event: <type>\ndata: <json>\n\n]; the provider is called once, after
    the first two events, and its stream is entered and left once. *)
Theorem streaming_event_sequence (client : VertexClaudeClient.t)
  (content : string) (d kwargs : pydict) (stream : json) (kw : pydict)
  (frags : list string) (tr : trace) :
  VertexClaudeClient.call_kwargs client (explicit_stream content d) kwargs
  = Return (stream, kw) ->
  messages_stream kw = Return {| fragments := frags; failure := None |} ->
  exists tr',
    generate client content d kwargs tr = (Return tt, tr')
    /\ yields tr'
       = (yields tr
          ++ spec_events json_dumps MODEL ("msg_" ++ Z_to_string time_ms) frags)%list
    /\ tr' = (tr
              ++ [ Yield (sse "message_start"
                            (message_start ("msg_" ++ Z_to_string time_ms)));
                   Yield (sse "content_block_start" (block_start 0));
                   ProviderStream kw;
                   StreamEnter ]
              ++ map (fun f => Yield (sse "content_block_delta" (delta 0 f))) frags
              ++ [ StreamExit;
                   Yield (sse "content_block_stop" (block_stop 0));
                   Yield (sse "message_delta" (message_delta (String.concat "" frags)));
                   Yield (sse "message_stop" message_stop) ])%list.
Proof.
  intros Hcall Hstream.
  assert (Hflag := call_kwargs_stream_flag _ _ _ _ _ _ Hcall). subst stream.
  eexists. split; [| split].
  - unfold generate. unfold bind at 1, emit at 1. unfold bind at 1, emit at 1.
    unfold bind at 1. rewrite client_create_message_run, Hcall. cbn [truthy].
    rewrite Hstream. unfold bind at 1.
    unfold consume, with_manager. unfold bind at 1. rewrite for_chunks_run.
    cbn [fragments failure]. unfold ret at 1.
    unfold bind, emit. reflexivity.
  - rewrite !yields_app. rewrite yields_delta_events. unfold spec_events.
    cbn [yields flat_map app]. rewrite <- !app_assoc. reflexivity.
  - unfold delta_events. rewrite <- !app_assoc. reflexivity.
Qed.

(** ** Only the first message is read *)

Lemma without_cons (a : string) (names : list string) (d : pydict) :
  Dict.without (a :: names) d = Dict.without names (Dict.without [a] d).
Proof.
  unfold Dict.without.
  induction d as [| [k v] rest IH]; [reflexivity |].
  cbn [filter fst]. rewrite str_in_cons, IH.
  destruct (String.eqb k a) eqn:E; cbn [orb negb str_in existsb].
  - rewrite E. reflexivity.
  - rewrite E. cbn [orb negb filter fst]. reflexivity.
Qed.

Lemma without_set (k : string) (v : json) (names : list string) (d : pydict) :
  str_in k names = false ->
  Dict.without names (Dict.set k v d) = Dict.set k v (Dict.without names d).
Proof.
  intros Hk. unfold Dict.without.
  induction d as [| [k' v'] rest IH]; cbn [Dict.set filter fst].
  - rewrite Hk. reflexivity.
  - destruct (String.eqb k k') eqn:E.
    + apply String.eqb_eq in E. subst k'.
      cbn [filter fst]. rewrite Hk. cbn [negb Dict.set].
      rewrite String.eqb_refl. reflexivity.
    + cbn [filter fst]. rewrite IH.
      destruct (str_in k' names); cbn [negb Dict.set]; [reflexivity |].
      rewrite E. reflexivity.
Qed.

Lemma same_but_messages_lookup (d1 d2 : pydict) (k : string) :
  same_but_messages d1 d2 -> String.eqb k "messages" = false ->
  Dict.lookup k d1 = Dict.lookup k d2.
Proof.
  intros Hsame Hk.
  assert (H : forall d, Dict.lookup k d = Dict.lookup k (Dict.without ["messages"] d)).
  { intros d. rewrite lookup_without. cbn [str_in existsb]. now rewrite Hk. }
  rewrite (H d1), (H d2). now rewrite Hsame.
Qed.

Lemma same_but_messages_set (d1 d2 : pydict) (k : string) (v : json) :
  same_but_messages d1 d2 -> String.eqb k "messages" = false ->
  same_but_messages (Dict.set k v d1) (Dict.set k v d2).
Proof.
  unfold same_but_messages. intros Hsame Hk.
  rewrite !without_set by (cbn [str_in existsb]; now rewrite Hk).
  now rewrite Hsame.
Qed.

Lemma forward_same_but_messages (client : VertexClaudeClient.t) (d1 d2 : pydict)
  (stream : json) (content : string) :
  same_but_messages d1 d2 ->
  forward client d1 stream content = forward client d2 stream content.
Proof.
  intros Hsame.
  assert (Hp : passthrough d1 = passthrough d2).
  { unfold passthrough. rewrite (without_cons "messages" _ d1).
    rewrite (without_cons "messages" _ d2). now rewrite Hsame. }
  assert (Hsys : Dict.get "system" d1 = Dict.get "system" d2).
  { unfold Dict.get, Dict.get_default.
    now rewrite (same_but_messages_lookup d1 d2 "system" Hsame eq_refl). }
  unfold forward, generate, explicit_create, explicit_stream.
  rewrite Hp, Hsys. reflexivity.
Qed.

(** C9.  Two requests that are the same but for the messages after the
    first are handled alike: the response and the generator it may carry
    are equal, and so are the outcome and the trace of the whole request,
    with the prompt and the parameters of the provider call in it. *)
Theorem later_messages_ignored (client : VertexClaudeClient.t) (d1 d2 : pydict)
  (first : json) (rest1 rest2 : list json) (tr : trace) :
  same_but_messages d1 d2 ->
  Dict.lookup "messages" d1 = Some (JArr (first :: rest1)) ->
  Dict.lookup "messages" d2 = Some (JArr (first :: rest2)) ->
  create_message client (JObj d1) tr = create_message client (JObj d2) tr
  /\ handle_request client (JObj d1) tr = handle_request client (JObj d2) tr.
Proof.
  intros Hsame H1 H2.
  assert (Hsame_response :
            create_message client (JObj d1) tr = create_message client (JObj d2) tr);
    [| split; [exact Hsame_response
              | unfold handle_request, bind; now rewrite Hsame_response]].
  unfold create_message, try_except.
  assert (Htry : create_message_try client (JObj d1) tr
                 = create_message_try client (JObj d2) tr);
    [| now rewrite Htry].
  unfold create_message_try.
  rewrite (truthy_lookup _ _ _ H1), (truthy_lookup _ _ _ H2).
  cbn [negb get_method]. unfold bind at 1 3, lift at 1 3.
  assert (Hmodel : Dict.get "model" d1 = Dict.get "model" d2).
  { unfold Dict.get, Dict.get_default.
    now rewrite (same_but_messages_lookup d1 d2 "model" Hsame eq_refl). }
  rewrite Hmodel. unfold bind at 1 2, lift at 1 2.
  destruct (resolve_model (Dict.get "model" d2)) as [upstream | e]; [| reflexivity].
  pose proof (same_but_messages_set d1 d2 "model" (JStr upstream) Hsame eq_refl)
    as Hsame'.
  rewrite (handle_messages_first _ _ _ _ (lookup_messages_resolved _ _ _ H1)).
  rewrite (handle_messages_first _ _ _ _ (lookup_messages_resolved _ _ _ H2)).
  assert (Hstream : Dict.get_default "stream" (JBool false)
                      (Dict.set "model" (JStr upstream) d1)
                    = Dict.get_default "stream" (JBool false)
                        (Dict.set "model" (JStr upstream) d2)).
  { unfold Dict.get_default.
    now rewrite (same_but_messages_lookup _ _ "stream" Hsame' eq_refl). }
  rewrite Hstream. unfold bind, lift.
  destruct (normalize_content first) as [[content |] | e]; try reflexivity.
  now rewrite (forward_same_but_messages _ _ _ _ _ Hsame').
Qed.

(** ** Every way the generator and the handler can go *)

Lemma generate_run (client : VertexClaudeClient.t) (content : string)
  (d kwargs : pydict) (tr : trace) :
  generate client content d kwargs tr
  = match VertexClaudeClient.call_kwargs client (explicit_stream content d) kwargs with
    | Raise e => (Raise e, (tr ++ stream_head)%list)
    | Return (_, kw) =>
        match messages_stream kw with
        | Raise e => (Raise e, (tr ++ stream_head ++ [ProviderStream kw])%list)
        | Return s =>
            let streamed :=
              (tr ++ stream_head ++ [ProviderStream kw; StreamEnter]
               ++ delta_events 0 (fragments s) ++ [StreamExit])%list in
            match failure s with
            | Some e => (Raise e, streamed)
            | None => (Return tt, (streamed ++ stream_tail (fragments s))%list)
            end
        end
    end.
Proof.
  unfold generate. unfold bind at 1, emit at 1. unfold bind at 1, emit at 1.
  unfold bind at 1. rewrite client_create_message_run.
  destruct (VertexClaudeClient.call_kwargs client (explicit_stream content d) kwargs)
    as [[stream kw] | e] eqn:Hcall.
  - rewrite (call_kwargs_stream_flag _ _ _ _ _ _ Hcall). cbn [truthy].
    destruct (messages_stream kw) as [s | e].
    + unfold bind at 1. unfold consume, with_manager. unfold bind at 1.
      rewrite for_chunks_run. cbn [append].
      destruct (failure s) as [e |].
      * unfold raise. cbv zeta. f_equal. rewrite <- !app_assoc. reflexivity.
      * unfold ret at 1. cbv zeta. unfold bind, emit, stream_tail.
        f_equal. rewrite <- !app_assoc. reflexivity.
    + rewrite <- !app_assoc. reflexivity.
  - rewrite <- !app_assoc. reflexivity.
Qed.

(** A call written without [stream] is bound with the default [False]:
    the passthrough parameters never hold the key. *)
Lemma call_kwargs_create_flag (client : VertexClaudeClient.t) (content : string)
  (d : pydict) (stream : json) (kw : pydict) :
  VertexClaudeClient.call_kwargs client (explicit_create content d) (passthrough d)
  = Return (stream, kw) ->
  stream = JBool false.
Proof.
  unfold VertexClaudeClient.call_kwargs, VertexClaudeClient.bind_call.
  destruct (Dict.first_key_in _ (passthrough d)); [discriminate |].
  destruct (Dict.mem "self" _); [discriminate |].
  cbn [explicit_create app Dict.lookup String.eqb Ascii.eqb Bool.eqb obind
       Dict.get_default VertexClaudeClient.stream].
  destruct (VertexClaudeClient.request_kwargs _ _); cbn [obind]; [| discriminate].
  unfold Dict.get_default. cbn [Dict.lookup String.eqb Ascii.eqb Bool.eqb].
  unfold passthrough. rewrite lookup_without.
  cbn [str_in existsb String.eqb Ascii.eqb Bool.eqb orb]. congruence.
Qed.

Lemma forward_run (client : VertexClaudeClient.t) (d : pydict) (stream : json)
  (content : string) (tr : trace) :
  forward client d stream content tr
  = if truthy stream then
      (Return (Response (generate client content d (passthrough d))
                 "text/event-stream"
                 [("Cache-Control", "no-cache"); ("Connection", "keep-alive")]), tr)
    else
      match VertexClaudeClient.call_kwargs client (explicit_create content d)
              (passthrough d) with
      | Raise e => (Raise e, tr)
      | Return (_, kw) =>
          ((m <- messages_create kw ;;
            body <- response_json (Created m) ;;
            Return (jsonify body 200))%outcome,
           (tr ++ [ProviderCreate kw])%list)
      end.
Proof.
  unfold forward. destruct (truthy stream); [reflexivity |].
  unfold bind at 1. rewrite client_create_message_run.
  destruct (VertexClaudeClient.call_kwargs client (explicit_create content d)
              (passthrough d)) as [[flag kw] | e] eqn:Hcall; [| reflexivity].
  rewrite (call_kwargs_create_flag _ _ _ _ _ Hcall). cbn [truthy].
  destruct (messages_create kw) as [m | e]; [| reflexivity].
  unfold bind, lift, ret. cbn [obind].
  destruct (response_json (Created m)); reflexivity.
Qed.

Lemma create_message_try_forwarded (client : VertexClaudeClient.t) (data : json)
  (d : pydict) (content : string) :
  forwarded data d content ->
  create_message_try client data
  = forward client d (Dict.get_default "stream" (JBool false) d) content.
Proof.
  intros (d0 & upstream & first & -> & Ht & Hres & -> & Hm & Hfirst & Hnorm).
  unfold create_message_try. rewrite Ht. cbn [negb get_method].
  unfold bind at 1, lift at 1. unfold bind at 1, lift at 1. rewrite Hres.
  unfold handle_messages. rewrite Hm. cbn [negb].
  unfold bind at 1, lift at 1. rewrite Hfirst.
  unfold bind at 1, lift at 1. rewrite Hnorm. reflexivity.
Qed.

(** The body of the [try] either stops before any provider call, with a
    400, an exception or a streamed response, or makes one [create] call. *)
Lemma create_message_try_inv (client : VertexClaudeClient.t) (data : json)
  (tr tr' : trace) (o : outcome response) :
  create_message_try client data tr = (o, tr') ->
  (tr' = tr
   /\ match o with
      | Return (jsonify _ status) => status = 400
      | Return (Response g _ _) =>
          exists d content,
            forwarded data d content /\ g = generate client content d (passthrough d)
      | Raise _ => True
      end)
  \/ (exists d content flag kw,
        forwarded data d content
        /\ VertexClaudeClient.call_kwargs client (explicit_create content d)
             (passthrough d) = Return (flag, kw)
        /\ tr' = (tr ++ [ProviderCreate kw])%list
        /\ o = (m <- messages_create kw ;;
                body <- response_json (Created m) ;;
                Return (jsonify body 200))%outcome).
Proof.
  unfold create_message_try.
  destruct (truthy data) eqn:Htruthy; cbn [negb].
  2:{ unfold ret. intros H. injection H as <- <-. left. auto. }
  unfold bind at 1, lift at 1.
  destruct (get_method data) as [d0 | e] eqn:Hget.
  2:{ intros H. injection H as <- <-. left. auto. }
  assert (data = JObj d0) as ->.
  { destruct data; cbn in Hget; try discriminate. now injection Hget as ->. }
  unfold bind at 1, lift at 1.
  destruct (resolve_model (Dict.get "model" d0)) as [upstream | e] eqn:Hres.
  2:{ intros H. injection H as <- <-. left. auto. }
  unfold handle_messages.
  destruct (truthy (Dict.get_default "messages" (JArr []) _)) eqn:Hm; cbn [negb].
  2:{ unfold ret. intros H. injection H as <- <-. left. auto. }
  unfold bind at 1, lift at 1.
  destruct (getitem0 _) as [first | e] eqn:Hfirst.
  2:{ intros H. injection H as <- <-. left. auto. }
  unfold bind at 1, lift at 1.
  destruct (normalize_content first) as [[content |] | e] eqn:Hnorm.
  3:{ intros H. injection H as <- <-. left. auto. }
  2:{ unfold ret. intros H. injection H as <- <-. left. auto. }
  assert (Hfw : forwarded (JObj d0) (Dict.set "model" (JStr upstream) d0) content).
  { exists d0, upstream, first. repeat split; assumption. }
  rewrite forward_run.
  destruct (truthy (Dict.get_default "stream" (JBool false)
                      (Dict.set "model" (JStr upstream) d0))).
  { intros H. injection H as <- <-. left. split; [reflexivity | eauto]. }
  destruct (VertexClaudeClient.call_kwargs _ _ _) as [[flag kw] | e] eqn:Hcall.
  2:{ intros H. injection H as <- <-. left. auto. }
  intros H. injection H as <- <-. right.
  exists (Dict.set "model" (JStr upstream) d0), content, flag, kw. auto.
Qed.

(** ** The non-streaming response *)

Lemma content_blocks_inv (blocks : list ContentBlock.t) (js : list json) :
  content_blocks blocks = Return js -> Forall2 block_json blocks js.
Proof.
  revert js. induction blocks as [| block rest IH]; intros js; cbn [content_blocks].
  - intros H. injection H as <-. constructor.
  - destruct (ContentBlock.text block) as [t |] eqn:Ht; [| discriminate].
    destruct (content_blocks rest) as [bs | e]; cbn [obind]; [| discriminate].
    intros H. injection H as <-. constructor; [| now apply IH].
    exists t. auto.
Qed.

(** C4 (amended).  A body returned with HTTP 200 is the provider's message
    written field for field: id, content (one object with exactly type and
    text per block), model, role, stop_reason, stop_sequence, type and
    usage (exactly the four token counts), after exactly one [create] call
    of the provider; the message's own [type] is one of the fields. *)
Theorem chat_response_shape (client : VertexClaudeClient.t) (data body : json)
  (tr tr' : trace) :
  create_message client data tr = (Return (jsonify body 200), tr') ->
  exists (kw : pydict) (message : Message.t) (blocks : list json) (fields : pydict),
    tr' = (tr ++ [ProviderCreate kw])%list
    /\ messages_create kw = Return message
    /\ Forall2 block_json (Message.content message) blocks
    /\ body = JObj fields
    /\ Dict.keys fields = response_fields
    /\ fields
       = [ ("id", JStr (Message.id message));
           ("content", JArr blocks);
           ("model", JStr (Message.model message));
           ("role", JStr (Message.role message));
           ("stop_reason", opt_str (Message.stop_reason message));
           ("stop_sequence", opt_str (Message.stop_sequence message));
           ("type", JStr (Message.type message));
           ("usage",
            JObj [ ("input_tokens", JInt (Usage.input_tokens (Message.usage message)));
                   ("output_tokens", JInt (Usage.output_tokens (Message.usage message)));
                   ("cache_creation_input_tokens",
                    opt_int (Usage.cache_creation_input_tokens (Message.usage message)));
                   ("cache_read_input_tokens",
                    opt_int (Usage.cache_read_input_tokens (Message.usage message))) ]) ].
Proof.
  unfold create_message, try_except.
  destruct (create_message_try client data tr) as [[r | e] tr1] eqn:Htry.
  2:{ unfold ret. intros H. discriminate H. }
  intros H. injection H as -> ->.
  apply create_message_try_inv in Htry.
  destruct Htry as [[_ Hstatus] | (d & content & flag & kw & _ & _ & -> & Ho)].
  { discriminate Hstatus. }
  destruct (messages_create kw) as [message | e] eqn:Hcreate; [| discriminate Ho].
  cbn [obind response_json] in Ho.
  destruct (content_blocks (Message.content message)) as [blocks | e] eqn:Hblocks;
    [| discriminate Ho].
  cbn [obind] in Ho. injection Ho as ->.
  eexists kw, message, blocks, _.
  repeat split; try reflexivity; [assumption |].
  now apply content_blocks_inv.
Qed.

(** ** Failures *)

(** C8 (amended).  An exception raised while the handler runs, on either
    path before the response is returned and on the non-streaming path up
    to its end, the provider's failure included, is answered with HTTP 500
    and [{"error": str(e)}] after at most one provider call; an exception
    raised by the generator of a streamed response is raised when the body
    is iterated, after the handler has returned the response, and ends
    the stream early. *)
Theorem handler_failure_500 :
  (forall (client : VertexClaudeClient.t) (data : json) (tr tr' : trace) (e : pyexn),
      create_message_try client data tr = (Raise e, tr') ->
      create_message client data tr
      = (Return (jsonify (error_body (str e)) 500), tr')
      /\ (tr' = tr \/ exists kw, tr' = (tr ++ [ProviderCreate kw])%list))
  /\ (forall (client : VertexClaudeClient.t) (data : json) (d : pydict)
             (content : string) (flag : json) (kw : pydict) (tr : trace) (e : pyexn),
        forwarded data d content ->
        truthy (Dict.get_default "stream" (JBool false) d) = false ->
        VertexClaudeClient.call_kwargs client (explicit_create content d)
          (passthrough d) = Return (flag, kw) ->
        messages_create kw = Raise e ->
        create_message client data tr
        = (Return (jsonify (error_body (str e)) 500), (tr ++ [ProviderCreate kw])%list))
  /\ (forall (client : VertexClaudeClient.t) (data : json) (d : pydict)
             (content : string) (flag : json) (kw : pydict) (tr : trace) (e : pyexn),
        forwarded data d content ->
        truthy (Dict.get_default "stream" (JBool false) d) = true ->
        VertexClaudeClient.call_kwargs client (explicit_stream content d)
          (passthrough d) = Return (flag, kw) ->
        messages_stream kw = Raise e ->
        exists r,
          create_message client data tr = (Return r, tr)
          /\ status_of r = 200
          /\ serve r tr = (Raise e, (tr ++ stream_head ++ [ProviderStream kw])%list)).
Proof.
  split; [| split].
  - intros client data tr tr' e Htry.
    split.
    + unfold create_message, try_except. now rewrite Htry.
    + apply create_message_try_inv in Htry.
      destruct Htry as [[-> _] | (d & content & flag & kw & _ & _ & -> & _)]; eauto.
  - intros client data d content flag kw tr e Hfw Hstream Hcall Hfail.
    unfold create_message, try_except.
    rewrite (create_message_try_forwarded _ _ _ _ Hfw), forward_run.
    rewrite Hstream, Hcall, Hfail. reflexivity.
  - intros client data d content flag kw tr e Hfw Hstream Hcall Hfail.
    eexists. unfold create_message, try_except.
    rewrite (create_message_try_forwarded _ _ _ _ Hfw), forward_run.
    rewrite Hstream. split; [reflexivity | split; [reflexivity |]].
    cbn [serve]. rewrite generate_run, Hcall, Hfail. reflexivity.
Qed.

(** ** The parameters of the provider call *)

Lemma bind_call_bound (explicit starred : pydict) (b : VertexClaudeClient.bound)
  (content : string) (d : pydict) :
  explicit = explicit_create content d \/ explicit = explicit_stream content d ->
  VertexClaudeClient.bind_call explicit starred = Return b ->
  VertexClaudeClient.prompt b = JStr content
  /\ VertexClaudeClient.system_prompt b = Dict.get "system" d
  /\ VertexClaudeClient.max_tokens b
     = Dict.get_default "max_tokens" (JInt 1024) starred
  /\ VertexClaudeClient.kwargs b = Dict.without bound_names starred
  /\ Dict.lookup "prompt" starred = None
  /\ Dict.lookup "system_prompt" starred = None
  /\ Dict.lookup "self" starred = None.
Proof.
  intros Hex. unfold VertexClaudeClient.bind_call.
  destruct (Dict.first_key_in (Dict.keys explicit) starred) eqn:Hk; [discriminate |].
  destruct (Dict.mem "self" (explicit ++ starred)%list) eqn:Hself; [discriminate |].
  apply mem_false in Hself.
  assert (Hp : Dict.lookup "prompt" starred = None)
    by (apply (first_key_in_none _ _ _ Hk); destruct Hex as [-> | ->]; reflexivity).
  assert (Hsp : Dict.lookup "system_prompt" starred = None)
    by (apply (first_key_in_none _ _ _ Hk); destruct Hex as [-> | ->]; reflexivity).
  destruct Hex as [-> | ->];
    cbn [explicit_create explicit_stream app Dict.lookup String.eqb Ascii.eqb Bool.eqb]
      in Hself |- *;
    intros H; injection H as <-;
    cbn [VertexClaudeClient.prompt VertexClaudeClient.system_prompt
         VertexClaudeClient.max_tokens VertexClaudeClient.kwargs];
    unfold Dict.get_default, Dict.without, bound_names;
    cbn [Dict.lookup String.eqb Ascii.eqb Bool.eqb filter fst str_in existsb orb negb];
    repeat split; assumption || reflexivity.
Qed.

Lemma request_kwargs_lookup (client : VertexClaudeClient.t)
  (b : VertexClaudeClient.bound) (kw : pydict) (k : string) :
  VertexClaudeClient.request_kwargs client b = Return kw ->
  NoDup (Dict.keys (VertexClaudeClient.kwargs b)) ->
  Dict.lookup k kw
  = if (String.eqb k "tools" && truthy (JArr (VertexClaudeClient.tools client)))%bool
    then Some (JArr (VertexClaudeClient.tools client))
    else if (String.eqb k "system" && truthy (VertexClaudeClient.system_prompt b))%bool
    then Some (VertexClaudeClient.system_prompt b)
    else match Dict.lookup k (Dict.without ["messages"; "system"]
                                (VertexClaudeClient.kwargs b)) with
         | Some v => Some v
         | None => Dict.lookup k (base_kwargs client b)
         end.
Proof.
  intros Hreq Hnd. unfold VertexClaudeClient.request_kwargs in Hreq.
  destruct (slice_check (VertexClaudeClient.prompt b)); [| discriminate].
  cbn [obind] in Hreq. fold (base_kwargs client b) in Hreq.
  set (u := Dict.update (base_kwargs client b)
              (Dict.without ["messages"; "system"] (VertexClaudeClient.kwargs b)))
    in Hreq.
  assert (Hu : Dict.lookup k u
               = match Dict.lookup k (Dict.without ["messages"; "system"]
                                        (VertexClaudeClient.kwargs b)) with
                 | Some v => Some v
                 | None => Dict.lookup k (base_kwargs client b)
                 end)
    by (apply lookup_update, NoDup_keys_without, Hnd).
  assert (Hs : exists kw1,
             kw = (if truthy (JArr (VertexClaudeClient.tools client))
                   then Dict.set "tools" (JArr (VertexClaudeClient.tools client)) kw1
                   else kw1)
             /\ Dict.lookup k kw1
                = if (String.eqb k "system"
                      && truthy (VertexClaudeClient.system_prompt b))%bool
                  then Some (VertexClaudeClient.system_prompt b)
                  else Dict.lookup k u).
  { destruct (truthy (VertexClaudeClient.system_prompt b)).
    - destruct (slice_check (VertexClaudeClient.system_prompt b)); [| discriminate].
      cbn [obind] in Hreq. injection Hreq as <-. eexists. split; [reflexivity |].
      destruct (String.eqb k "system") eqn:E; cbn [andb].
      + apply String.eqb_eq in E. subst k. apply lookup_set_eq.
      + apply lookup_set_ne. now apply String.eqb_neq.
    - cbn [obind] in Hreq. injection Hreq as <-. eexists. split; [reflexivity |].
      now rewrite andb_false_r. }
  destruct Hs as (kw1 & -> & Hkw1). rewrite <- Hu, <- Hkw1.
  destruct (truthy (JArr (VertexClaudeClient.tools client))).
  - destruct (String.eqb k "tools") eqn:E; cbn [andb].
    + apply String.eqb_eq in E. subst k. apply lookup_set_eq.
    + apply lookup_set_ne. now apply String.eqb_neq.
  - now rewrite andb_false_r.
Qed.

Lemma lookup_passthrough (k : string) (d : pydict) :
  str_in k ["messages"; "system"; "stream"] = false ->
  Dict.lookup k (passthrough d) = Dict.lookup k d.
Proof. intros H. unfold passthrough. now rewrite lookup_without, H. Qed.

Lemma str_in_false_cons (k a : string) (names : list string) :
  str_in k (a :: names) = false -> k <> a /\ str_in k names = false.
Proof.
  rewrite str_in_cons. intros H. apply orb_false_iff in H. destruct H as [H1 H2].
  split; [now apply String.eqb_neq | assumption].
Qed.

(** The parameters of the provider call for a request [d0] whose model has
    been resolved to [upstream]. *)
Lemma call_kwargs_parameters (client : VertexClaudeClient.t) (explicit : pydict)
  (content : string) (d0 : pydict) (upstream : string) (flag : json) (kw : pydict) :
  NoDup (Dict.keys d0) ->
  explicit = explicit_create content (Dict.set "model" (JStr upstream) d0)
  \/ explicit = explicit_stream content (Dict.set "model" (JStr upstream) d0) ->
  VertexClaudeClient.call_kwargs client explicit
    (passthrough (Dict.set "model" (JStr upstream) d0)) = Return (flag, kw) ->
  (forall k v,
      Dict.lookup k d0 = Some v ->
      str_in k ["messages"; "system"; "model"; "stream"] = false ->
      (k = "tools" -> VertexClaudeClient.tools client = []) ->
      Dict.lookup k kw = Some v)
  /\ Dict.lookup "stream" kw = None
  /\ Dict.lookup "model" kw = Some (JStr upstream)
  /\ Dict.lookup "messages" kw
     = Some (JArr [JObj [("role", JStr "user"); ("content", JStr content)]])
  /\ Dict.lookup "system" kw
     = (if truthy (Dict.get "system" d0) then Some (Dict.get "system" d0) else None)
  /\ (VertexClaudeClient.tools client <> [] ->
      Dict.lookup "tools" kw = Some (JArr (VertexClaudeClient.tools client))).
Proof.
  intros Hnd0 Hex. set (d := Dict.set "model" (JStr upstream) d0) in *.
  unfold VertexClaudeClient.call_kwargs.
  destruct (VertexClaudeClient.bind_call explicit (passthrough d)) as [b | e] eqn:Hb;
    [| discriminate].
  cbn [obind].
  destruct (VertexClaudeClient.request_kwargs client b) as [kw' | e] eqn:Hr;
    [| discriminate].
  cbn [obind]. intros H. injection H as _ ->.
  destruct (bind_call_bound _ _ _ _ _ Hex Hb)
    as (Hprompt & Hsys & Hmax & Hkwargs & Hnop & Hnosp & _).
  assert (Hnd : NoDup (Dict.keys (VertexClaudeClient.kwargs b))).
  { rewrite Hkwargs. unfold passthrough.
    now apply NoDup_keys_without, NoDup_keys_without, NoDup_keys_set. }
  assert (Hsys0 : Dict.get "system" d = Dict.get "system" d0).
  { unfold Dict.get, Dict.get_default, d. rewrite lookup_set_ne; [reflexivity | discriminate]. }
  assert (Hlook : forall k,
             Dict.lookup k kw
             = if (String.eqb k "tools"
                   && truthy (JArr (VertexClaudeClient.tools client)))%bool
               then Some (JArr (VertexClaudeClient.tools client))
               else if (String.eqb k "system" && truthy (Dict.get "system" d0))%bool
               then Some (Dict.get "system" d0)
               else match
                   (if str_in k ["messages"; "system"] then None
                    else if str_in k bound_names then None
                    else Dict.lookup k (passthrough d))
                 with
                 | Some v => Some v
                 | None => Dict.lookup k (base_kwargs client b)
                 end).
  { intros k. rewrite (request_kwargs_lookup _ _ _ k Hr Hnd).
    rewrite Hsys, Hsys0, Hkwargs, !lookup_without. reflexivity. }
  split; [| split; [| split; [| split; [| split]]]].
  - intros k v Hk Hres Htools.
    apply str_in_false_cons in Hres. destruct Hres as [Hmsg Hres].
    apply str_in_false_cons in Hres. destruct Hres as [Hsystem Hres].
    apply str_in_false_cons in Hres. destruct Hres as [Hmodel Hres].
    apply str_in_false_cons in Hres. destruct Hres as [Hstream _].
    assert (Hpass : Dict.lookup k (passthrough d) = Some v).
    { rewrite lookup_passthrough.
      - unfold d. now rewrite lookup_set_ne.
      - cbn [str_in existsb]. now eqb_false. }
    rewrite Hlook.
    replace (String.eqb k "tools" && truthy (JArr (VertexClaudeClient.tools client)))%bool
      with false.
    2:{ destruct (String.eqb_spec k "tools") as [E | _]; [| reflexivity].
        now rewrite (Htools E). }
    rewrite (proj2 (String.eqb_neq _ _) Hsystem). cbn [andb].
    replace (str_in k ["messages"; "system"]) with false
      by (cbn [str_in existsb]; now eqb_false).
    destruct (String.eqb_spec k "prompt") as [-> | Hp]; [congruence |].
    destruct (String.eqb_spec k "system_prompt") as [-> | Hsp]; [congruence |].
    destruct (String.eqb_spec k "max_tokens") as [-> | Hmt].
    + cbn [str_in existsb bound_names String.eqb Ascii.eqb Bool.eqb orb
           base_kwargs Dict.lookup].
      rewrite Hmax. f_equal. now apply get_default_lookup.
    + replace (str_in k bound_names) with false
        by (unfold bound_names; cbn [str_in existsb]; now eqb_false).
      now rewrite Hpass.
  - rewrite Hlook. reflexivity.
  - rewrite Hlook. cbn [String.eqb Ascii.eqb Bool.eqb andb str_in existsb orb bound_names].
    rewrite lookup_passthrough by reflexivity.
    unfold d. now rewrite lookup_set_eq.
  - rewrite Hlook. cbn [String.eqb Ascii.eqb Bool.eqb andb str_in existsb orb
                        base_kwargs Dict.lookup].
    now rewrite Hprompt.
  - rewrite Hlook. cbn [String.eqb Ascii.eqb Bool.eqb andb str_in existsb orb
                        base_kwargs Dict.lookup].
    now destruct (truthy (Dict.get "system" d0)).
  - intros Htools. rewrite Hlook. cbn [String.eqb Ascii.eqb Bool.eqb andb truthy].
    destruct (VertexClaudeClient.tools client); [congruence | reflexivity].
Qed.

Lemma provider_calls_app (t1 t2 : trace) :
  provider_calls (t1 ++ t2)%list = (provider_calls t1 ++ provider_calls t2)%list.
Proof. unfold provider_calls. apply filter_app. Qed.

Lemma provider_calls_delta_events (idx : Z) (chunks : list string) :
  provider_calls (delta_events idx chunks) = [].
Proof. induction chunks as [| c rest IH]; simpl; auto. Qed.

(** The provider calls of a whole request: none, or one [create] call, or
    one [stream] call, with the keyword arguments of the client call. *)
Lemma handle_request_calls (client : VertexClaudeClient.t) (data : json)
  (o : outcome unit) (tr' : trace) :
  handle_request client data [] = (o, tr') ->
  provider_calls tr' = []
  \/ exists d content flag kw,
       forwarded data d content
       /\ ((VertexClaudeClient.call_kwargs client (explicit_create content d)
              (passthrough d) = Return (flag, kw)
            /\ provider_calls tr' = [ProviderCreate kw])
           \/ (VertexClaudeClient.call_kwargs client (explicit_stream content d)
                 (passthrough d) = Return (flag, kw)
               /\ provider_calls tr' = [ProviderStream kw])).
Proof.
  unfold handle_request, bind, create_message, try_except.
  destruct (create_message_try client data []) as [[r | e] tr1] eqn:Htry;
    apply create_message_try_inv in Htry;
    destruct Htry as [[-> Hr] | (d & content & flag & kw & Hfw & Hcall & -> & Ho)].
  - destruct r as [body status | g mimetype headers]; cbn [serve].
    + unfold ret. intros H. injection H as _ <-. now left.
    + destruct Hr as (d & content & Hfw & ->). rewrite generate_run.
      destruct (VertexClaudeClient.call_kwargs client (explicit_stream content d)
                  (passthrough d)) as [[flag kw] | e] eqn:Hcall.
      * intros H. right. exists d, content, flag, kw. split; [assumption |].
        right. split; [assumption |].
        destruct (messages_stream kw) as [s | e]; [cbv zeta in H; destruct (failure s) |];
          injection H as _ <-;
          try (pose proof (provider_calls_delta_events 0 (fragments s)) as Hd;
               unfold provider_calls in Hd);
          unfold provider_calls, stream_head, stream_tail;
          cbn [app filter is_provider_call];
          rewrite ?filter_app, ?Hd; reflexivity.
      * intros H. injection H as _ <-. now left.
  - assert (Hr : exists body, r = jsonify body 200).
    { destruct (messages_create kw) as [m | e]; [| discriminate Ho].
      cbn [obind] in Ho.
      destruct (response_json (Created m)) as [body | e]; [| discriminate Ho].
      injection Ho as ->. eauto. }
    destruct Hr as [body ->].
    cbn [serve]. unfold ret. intros H. injection H as _ <-.
    right. exists d, content, flag, kw. split; [assumption |]. left. now split.
  - unfold ret. cbn [serve]. intros H. injection H as _ <-. now left.
  - unfold ret. cbn [serve]. intros H. injection H as _ <-.
    right. exists d, content, flag, kw. split; [assumption |]. left. now split.
Qed.

(** C2 (amended).  For a request object (its keys are distinct), a
    provider call of the handler carries every field of the request other
    than messages, system, model and stream with the request's value (a
    tools field when the client has no tools of its own, which otherwise
    take its place); [stream] is not a parameter, [messages] is the single
    user turn built from the prompt, [system] is passed when it is truthy,
    and [model] is one of the passthrough parameters: it carries the
    resolved identifier stored in the request. *)
Theorem forwarded_parameters (client : VertexClaudeClient.t) (d0 : pydict)
  (o : outcome unit) (tr' : trace) (kw : pydict) :
  NoDup (Dict.keys d0) ->
  handle_request client (JObj d0) [] = (o, tr') ->
  In (ProviderCreate kw) tr' \/ In (ProviderStream kw) tr' ->
  exists (upstream content : string),
    resolve_model (Dict.get "model" d0) = Return upstream
    /\ (forall k v,
          Dict.lookup k d0 = Some v ->
          str_in k ["messages"; "system"; "model"; "stream"] = false ->
          (k = "tools" -> VertexClaudeClient.tools client = []) ->
          Dict.lookup k kw = Some v)
    /\ Dict.lookup "stream" kw = None
    /\ Dict.lookup "model" (passthrough (Dict.set "model" (JStr upstream) d0))
       = Some (JStr upstream)
    /\ Dict.lookup "model" kw = Some (JStr upstream)
    /\ Dict.lookup "messages" kw
       = Some (JArr [JObj [("role", JStr "user"); ("content", JStr content)]])
    /\ Dict.lookup "system" kw
       = (if truthy (Dict.get "system" d0) then Some (Dict.get "system" d0) else None)
    /\ (VertexClaudeClient.tools client <> [] ->
        Dict.lookup "tools" kw = Some (JArr (VertexClaudeClient.tools client))).
Proof.
  intros Hnd Hrun Hin.
  assert (Hcalls : In (ProviderCreate kw) (provider_calls tr')
                   \/ In (ProviderStream kw) (provider_calls tr')).
  { unfold provider_calls. rewrite !filter_In. tauto. }
  apply handle_request_calls in Hrun.
  destruct Hrun as [Hnone | (d & content & flag & kw1 & Hfw & Hcall)].
  { rewrite Hnone in Hcalls. destruct Hcalls as [[] | []]. }
  destruct Hfw as (d0' & upstream & first & Hd0 & _ & Hres & -> & _).
  injection Hd0 as <-.
  exists upstream, content. split; [assumption |].
  assert (Hkw : exists explicit,
             (explicit = explicit_create content (Dict.set "model" (JStr upstream) d0)
              \/ explicit
                 = explicit_stream content (Dict.set "model" (JStr upstream) d0))
             /\ VertexClaudeClient.call_kwargs client explicit
                  (passthrough (Dict.set "model" (JStr upstream) d0))
                = Return (flag, kw)).
  { destruct Hcall as [[Hcall Hc] | [Hcall Hc]]; rewrite Hc in Hcalls;
      destruct Hcalls as [[E | []] | [E | []]]; try discriminate E;
      injection E as <-; eauto. }
  destruct Hkw as (explicit & Hex & Hcall').
  destruct (call_kwargs_parameters _ _ _ _ _ _ _ Hnd Hex Hcall')
    as (Hpass & Hstream & Hmodel & Hmsg & Hsys & Htools).
  repeat split; try assumption.
  rewrite lookup_passthrough by reflexivity. apply lookup_set_eq.
Qed.

(** ** Further properties of the handler *)

Lemma lookup_app (k : string) (d1 d2 : pydict) :
  Dict.lookup k (d1 ++ d2)%list
  = match Dict.lookup k d1 with Some v => Some v | None => Dict.lookup k d2 end.
Proof.
  induction d1 as [| [k' v'] rest IH]; simpl; auto.
  now destruct (String.eqb k k').
Qed.

Lemma lookup_some_key (k : string) (v : json) (d : pydict) :
  Dict.lookup k d = Some v -> In k (Dict.keys d).
Proof.
  induction d as [| [k' v'] rest IH]; simpl; [discriminate |].
  destruct (String.eqb k k') eqn:E; auto.
  apply String.eqb_eq in E. auto.
Qed.

Lemma create_message_raised (client : VertexClaudeClient.t) (data : json)
  (tr tr' : trace) (e : pyexn) :
  create_message_try client data tr = (Raise e, tr') ->
  create_message client data tr = (Return (jsonify (error_body (str e)) 500), tr').
Proof. intros H. unfold create_message, try_except. now rewrite H. Qed.

Lemma create_message_returned (client : VertexClaudeClient.t) (data : json)
  (tr tr' : trace) (r : response) :
  create_message_try client data tr = (Return r, tr') ->
  create_message client data tr = (Return r, tr').
Proof. intros H. unfold create_message, try_except. now rewrite H. Qed.

Lemma get_default_resolved (k : string) (default upstream : json) (d : pydict) :
  String.eqb k "model" = false ->
  Dict.get_default k default (Dict.set "model" upstream d)
  = Dict.get_default k default d.
Proof.
  intros Hk. unfold Dict.get_default.
  rewrite lookup_set_ne; [reflexivity | now apply String.eqb_neq].
Qed.

(** X1.  A body that is not a non-empty object never reaches the provider:
    a falsy one (null, false, 0, 0.0, the empty string, list or object) is
    answered with HTTP 400 "No JSON data provided", a truthy one with HTTP
    500 and the AttributeError of its missing [get]. *)
Theorem body_not_an_object (client : VertexClaudeClient.t) (data : json)
  (tr : trace) :
  (forall kv rest, data <> JObj (kv :: rest)) ->
  create_message client data tr
  = (Return (if truthy data
             then jsonify (error_body ("'" ++ type_name data
                                       ++ "' object has no attribute 'get'")) 500
             else jsonify (error_body "No JSON data provided") 400),
     tr).
Proof.
  intros Hnot. unfold create_message, try_except, create_message_try.
  destruct (truthy data) eqn:Ht; cbn [negb]; [| reflexivity].
  destruct data as [| b | z | f | s | items | fields]; try reflexivity.
  destruct fields as [| kv rest]; [discriminate Ht |].
  now destruct (Hnot kv rest).
Qed.

(** X2.  A request object whose [model] is absent or can be hashed, and
    which has no [messages] or a falsy value under it (null, false, 0, the
    empty string, list or object), is answered with HTTP 400 and the
    provider is not called; the message is "No messages provided", except
    for the empty object, which is refused before as "No JSON data
    provided". *)
Theorem no_messages_400 (client : VertexClaudeClient.t) (d : pydict) (tr : trace) :
  scalar (Dict.get "model" d) ->
  truthy (Dict.get_default "messages" (JArr []) d) = false ->
  create_message client (JObj d) tr
  = (Return (jsonify (error_body match d with
                                 | [] => "No JSON data provided"
                                 | _ :: _ => "No messages provided"
                                 end) 400),
     tr).
Proof.
  intros Hs Hm. destruct d as [| kv rest]; [reflexivity |].
  unfold create_message, try_except.
  rewrite create_message_try_resolved; [| discriminate | assumption].
  unfold handle_messages. rewrite get_default_resolved by reflexivity.
  now rewrite Hm.
Qed.

(** X3.  A request object whose [model] is absent or can be hashed, and
    whose [messages] is truthy but not a list that starts with an object,
    is answered with HTTP 500 and the text of the exception that
    [messages[0]] or [first_message.get] raises: for a list that starts
    with something else, and for a non-empty string, the AttributeError of
    the first element's missing [get]; for an object, the KeyError of the
    key 0; for a number or true, the TypeError of a value that cannot be
    indexed.  The provider is not called. *)
Theorem malformed_messages_500 (client : VertexClaudeClient.t) (d : pydict)
  (tr : trace) :
  scalar (Dict.get "model" d) ->
  truthy (Dict.get_default "messages" (JArr []) d) = true ->
  (forall fm rest, Dict.get_default "messages" (JArr []) d <> JArr (JObj fm :: rest)) ->
  create_message client (JObj d) tr
  = (Return
       (jsonify
          (error_body
             match Dict.get_default "messages" (JArr []) d with
             | JArr (first :: _) =>
                 "'" ++ type_name first ++ "' object has no attribute 'get'"
             | JStr _ => "'str' object has no attribute 'get'"
             | JObj _ => "0"
             | messages =>
                 "'" ++ type_name messages ++ "' object is not subscriptable"
             end) 500),
     tr).
Proof.
  intros Hs Hm Hnot.
  assert (Hne : d <> []) by (intros ->; discriminate Hm).
  unfold create_message, try_except.
  rewrite create_message_try_resolved by assumption.
  unfold handle_messages. rewrite !get_default_resolved by reflexivity.
  rewrite Hm. cbn [negb]. unfold bind, lift.
  destruct (Dict.get_default "messages" (JArr []) d)
    as [| b | z | f | s | items | fields]; cbn [getitem0]; try reflexivity.
  - destruct s as [| c s']; [discriminate Hm | reflexivity].
  - destruct items as [| first rest]; [discriminate Hm |].
    destruct first; try reflexivity.
    now destruct (Hnot fields rest).
Qed.

(** X4.  A request whose [model] is a list or an object is answered with
    HTTP 500 "unhashable type: ..." whatever its other fields are: the
    table lookup comes before the validation of [messages]. *)
Theorem unhashable_model_500 (client : VertexClaudeClient.t) (d : pydict)
  (v : json) (tr : trace) :
  Dict.lookup "model" d = Some v ->
  (scalar v -> False) ->
  create_message client (JObj d) tr
  = (Return (jsonify (error_body ("unhashable type: '" ++ type_name v ++ "'")) 500),
     tr).
Proof.
  intros Hv Hns.
  assert (Hraise : create_message_try client (JObj d) tr
                   = (Raise (TypeError ("unhashable type: '" ++ type_name v ++ "'")), tr)).
  { unfold create_message_try. rewrite (truthy_lookup _ _ _ Hv).
    cbn [negb get_method]. unfold bind, lift, Dict.get.
    rewrite (get_default_lookup _ _ _ _ Hv).
    destruct v; cbn in Hns; try (now destruct Hns); reflexivity. }
  now rewrite (create_message_raised _ _ _ _ _ Hraise).
Qed.

Lemma accepted_nonempty (d0 : pydict) (content : string) :
  accepted d0 content -> d0 <> [].
Proof. intros (_ & first & rest & Hm & _) ->. discriminate Hm. Qed.

(** An accepted request reaches the client call with its resolved fields. *)
Lemma create_message_try_accepted (client : VertexClaudeClient.t) (d0 : pydict)
  (content : string) :
  accepted d0 content ->
  create_message_try client (JObj d0)
  = forward client (resolved d0) (Dict.get_default "stream" (JBool false) d0) content.
Proof.
  intros Hacc. pose proof (accepted_nonempty _ _ Hacc) as Hne.
  destruct Hacc as (Hs & first & rest & Hm & Hn).
  rewrite create_message_try_resolved by assumption.
  rewrite (handle_messages_first _ _ _ _ (lookup_messages_resolved _ _ _ Hm)).
  unfold bind, lift. rewrite Hn.
  rewrite get_default_resolved by reflexivity. reflexivity.
Qed.

Lemma lookup_passthrough_resolved (k : string) (d0 : pydict) :
  str_in k ["messages"; "system"; "stream"; "model"] = false ->
  Dict.lookup k (passthrough (resolved d0)) = Dict.lookup k d0.
Proof.
  intros H. cbn [str_in existsb] in H.
  apply orb_false_iff in H. destruct H as [H1 H].
  apply orb_false_iff in H. destruct H as [H2 H].
  apply orb_false_iff in H. destruct H as [H3 H].
  apply orb_false_iff in H. destruct H as [H4 _].
  rewrite lookup_passthrough by (cbn [str_in existsb]; now rewrite H1, H2, H3).
  unfold resolved. apply lookup_set_ne. now apply String.eqb_neq.
Qed.

(** A passthrough parameter named like an explicit keyword, or [self],
    makes the call raise before the provider is reached. *)
Lemma call_kwargs_collision (client : VertexClaudeClient.t)
  (explicit starred : pydict) (k : string) (v : json) :
  str_in k (Dict.keys explicit) = true \/ k = "self" ->
  Dict.lookup k starred = Some v ->
  exists e, VertexClaudeClient.call_kwargs client explicit starred = Raise e.
Proof.
  intros Hk Hv. unfold VertexClaudeClient.call_kwargs, VertexClaudeClient.bind_call.
  destruct (Dict.first_key_in (Dict.keys explicit) starred) eqn:Hfirst;
    [cbn [obind]; eauto |].
  destruct Hk as [Hk | ->].
  - rewrite (first_key_in_none _ _ _ Hfirst Hk) in Hv. discriminate Hv.
  - unfold Dict.mem. rewrite lookup_app, Hv.
    destruct (Dict.lookup "self" explicit); cbn [obind]; eauto.
Qed.

(** X5.  A request with a field named [prompt], [system_prompt] or [self]
    cannot be forwarded: on the non-streaming path the client call raises
    a TypeError while its arguments are bound, the answer is HTTP 500 and
    the provider is not called. *)
Theorem keyword_field_500 (client : VertexClaudeClient.t) (d0 : pydict)
  (content k : string) (v : json) (tr : trace) :
  accepted d0 content ->
  truthy (Dict.get_default "stream" (JBool false) d0) = false ->
  In k ["prompt"; "system_prompt"; "self"] ->
  Dict.lookup k d0 = Some v ->
  exists e,
    create_message client (JObj d0) tr
    = (Return (jsonify (error_body (str e)) 500), tr).
Proof.
  intros Hacc Hstream Hk Hv.
  assert (Hpass : Dict.lookup k (passthrough (resolved d0)) = Some v).
  { rewrite lookup_passthrough_resolved; [assumption |].
    destruct Hk as [<- | [<- | [<- | []]]]; reflexivity. }
  destruct (call_kwargs_collision client (explicit_create content (resolved d0))
              (passthrough (resolved d0)) k v) as [e He]; [| assumption |].
  { destruct Hk as [<- | [<- | [<- | []]]]; auto. }
  exists e. apply create_message_raised.
  rewrite (create_message_try_accepted _ _ _ Hacc), forward_run, Hstream, He.
  reflexivity.
Qed.

(** X6.  On the streaming path the same request is answered with the
    streamed response (status 200) before the call is bound; when the body
    is iterated the generator yields message_start and content_block_start
    and then raises, without any provider call. *)
Theorem keyword_field_stream_cut (client : VertexClaudeClient.t) (d0 : pydict)
  (content k : string) (v : json) (tr : trace) :
  accepted d0 content ->
  truthy (Dict.get_default "stream" (JBool false) d0) = true ->
  In k ["prompt"; "system_prompt"; "self"] ->
  Dict.lookup k d0 = Some v ->
  exists r e,
    create_message client (JObj d0) tr = (Return r, tr)
    /\ status_of r = 200
    /\ serve r tr = (Raise e, (tr ++ stream_head)%list).
Proof.
  intros Hacc Hstream Hk Hv.
  assert (Hpass : Dict.lookup k (passthrough (resolved d0)) = Some v).
  { rewrite lookup_passthrough_resolved; [assumption |].
    destruct Hk as [<- | [<- | [<- | []]]]; reflexivity. }
  destruct (call_kwargs_collision client (explicit_stream content (resolved d0))
              (passthrough (resolved d0)) k v) as [e He]; [| assumption |].
  { destruct Hk as [<- | [<- | [<- | []]]]; auto. }
  eexists _, e. split; [| split].
  - apply create_message_returned.
    rewrite (create_message_try_accepted _ _ _ Hacc), forward_run, Hstream.
    reflexivity.
  - reflexivity.
  - cbn [serve]. rewrite generate_run, He. reflexivity.
Qed.

Lemma bind_call_system (explicit starred : pydict) (b : VertexClaudeClient.bound)
  (content : string) (d : pydict) :
  explicit = explicit_create content d \/ explicit = explicit_stream content d ->
  VertexClaudeClient.bind_call explicit starred = Return b ->
  VertexClaudeClient.system_prompt b = Dict.get "system" d.
Proof. intros Hex Hb. now destruct (bind_call_bound _ _ _ _ _ Hex Hb) as (_ & H & _). Qed.

(** X7.  A truthy [system] that cannot be sliced (a number, [true], an
    object) makes the client raise where it logs the first hundred
    characters: on the non-streaming path the answer is HTTP 500 and the
    provider is not called. *)
Theorem unsliceable_system_500 (client : VertexClaudeClient.t) (d0 : pydict)
  (content : string) (tr : trace) :
  accepted d0 content ->
  truthy (Dict.get_default "stream" (JBool false) d0) = false ->
  truthy (Dict.get "system" d0) = true ->
  is_str (Dict.get "system" d0) = false ->
  is_list (Dict.get "system" d0) = false ->
  exists e,
    create_message client (JObj d0) tr
    = (Return (jsonify (error_body (str e)) 500), tr).
Proof.
  intros Hacc Hstream Htruthy Hstr Hlist.
  assert (Hsys : Dict.get "system" (resolved d0) = Dict.get "system" d0)
    by (unfold Dict.get, resolved; now apply get_default_resolved).
  assert (Hraise : exists e,
             VertexClaudeClient.call_kwargs client (explicit_create content (resolved d0))
               (passthrough (resolved d0)) = Raise e).
  { unfold VertexClaudeClient.call_kwargs.
    destruct (VertexClaudeClient.bind_call _ _) as [b | e] eqn:Hb; cbn [obind]; [| eauto].
    pose proof (bind_call_system _ _ _ _ _ (or_introl eq_refl) Hb) as Hb_sys.
    rewrite Hsys in Hb_sys.
    unfold VertexClaudeClient.request_kwargs.
    destruct (slice_check (VertexClaudeClient.prompt b)); cbn [obind]; [| eauto].
    rewrite Hb_sys, Htruthy.
    destruct (Dict.get "system" d0); try discriminate; cbn [slice_check obind]; eauto. }
  destruct Hraise as [e He]. exists e. apply create_message_raised.
  rewrite (create_message_try_accepted _ _ _ Hacc), forward_run, Hstream, He.
  reflexivity.
Qed.

Lemma call_kwargs_max_tokens (client : VertexClaudeClient.t) (explicit : pydict)
  (content : string) (d0 : pydict) (upstream : string) (flag : json) (kw : pydict) :
  NoDup (Dict.keys d0) ->
  explicit = explicit_create content (Dict.set "model" (JStr upstream) d0)
  \/ explicit = explicit_stream content (Dict.set "model" (JStr upstream) d0) ->
  VertexClaudeClient.call_kwargs client explicit
    (passthrough (Dict.set "model" (JStr upstream) d0)) = Return (flag, kw) ->
  Dict.lookup "max_tokens" kw = Some (Dict.get_default "max_tokens" (JInt 1024) d0).
Proof.
  intros Hnd0 Hex. unfold VertexClaudeClient.call_kwargs.
  destruct (VertexClaudeClient.bind_call explicit _) as [b | e] eqn:Hb; [| discriminate].
  cbn [obind].
  destruct (VertexClaudeClient.request_kwargs client b) as [kw' | e] eqn:Hr;
    [| discriminate].
  cbn [obind]. intros H. injection H as _ ->.
  destruct (bind_call_bound _ _ _ _ _ Hex Hb) as (_ & _ & Hmax & Hkwargs & _).
  assert (Hnd : NoDup (Dict.keys (VertexClaudeClient.kwargs b))).
  { rewrite Hkwargs. unfold passthrough.
    now apply NoDup_keys_without, NoDup_keys_without, NoDup_keys_set. }
  rewrite (request_kwargs_lookup _ _ _ "max_tokens" Hr Hnd).
  cbn [String.eqb Ascii.eqb Bool.eqb andb].
  rewrite Hkwargs, !lookup_without.
  cbn [str_in existsb bound_names String.eqb Ascii.eqb Bool.eqb orb base_kwargs Dict.lookup].
  rewrite Hmax. f_equal. unfold Dict.get_default.
  rewrite lookup_passthrough by reflexivity.
  rewrite lookup_set_ne by discriminate. reflexivity.
Qed.

(** The provider call of a request, with what the request went through. *)
Lemma handle_request_call (client : VertexClaudeClient.t) (d0 : pydict)
  (o : outcome unit) (tr' : trace) (kw : pydict) :
  handle_request client (JObj d0) [] = (o, tr') ->
  In (ProviderCreate kw) tr' \/ In (ProviderStream kw) tr' ->
  exists upstream content explicit flag,
    resolve_model (Dict.get "model" d0) = Return upstream
    /\ (explicit = explicit_create content (Dict.set "model" (JStr upstream) d0)
        \/ explicit = explicit_stream content (Dict.set "model" (JStr upstream) d0))
    /\ VertexClaudeClient.call_kwargs client explicit
         (passthrough (Dict.set "model" (JStr upstream) d0)) = Return (flag, kw).
Proof.
  intros Hrun Hin.
  assert (Hcalls : In (ProviderCreate kw) (provider_calls tr')
                   \/ In (ProviderStream kw) (provider_calls tr')).
  { unfold provider_calls. rewrite !filter_In. tauto. }
  apply handle_request_calls in Hrun.
  destruct Hrun as [Hnone | (d & content & flag & kw1 & Hfw & Hcall)].
  { rewrite Hnone in Hcalls. destruct Hcalls as [[] | []]. }
  destruct Hfw as (d0' & upstream & first & Hd0 & _ & Hres & -> & _).
  injection Hd0 as <-.
  exists upstream, content.
  destruct Hcall as [[Hcall Hc] | [Hcall Hc]]; rewrite Hc in Hcalls;
    destruct Hcalls as [[E | []] | [E | []]]; try discriminate E;
    injection E as <-; eauto 10.
Qed.

(** X8.  Every provider call carries [max_tokens]: the request's value
    when it has one, 1024 otherwise. *)
Theorem max_tokens_default (client : VertexClaudeClient.t) (d0 : pydict)
  (o : outcome unit) (tr' : trace) (kw : pydict) :
  NoDup (Dict.keys d0) ->
  handle_request client (JObj d0) [] = (o, tr') ->
  In (ProviderCreate kw) tr' \/ In (ProviderStream kw) tr' ->
  Dict.lookup "max_tokens" kw = Some (Dict.get_default "max_tokens" (JInt 1024) d0).
Proof.
  intros Hnd Hrun Hin.
  destruct (handle_request_call _ _ _ _ _ Hrun Hin)
    as (upstream & content & explicit & flag & _ & Hex & Hcall).
  exact (call_kwargs_max_tokens _ _ _ _ _ _ _ Hnd Hex Hcall).
Qed.

Lemma mapped_model_configured (requested : json) :
  mapped_model requested = MODEL \/ mapped_model requested = HAIKU_MODEL.
Proof.
  destruct requested as [| | | | alias | |]; auto.
  unfold mapped_model, SUPPORTED_MODELS. cbn [supported_model].
  repeat match goal with
         | |- context [String.eqb alias ?k] => destruct (String.eqb alias k); auto
         end.
Qed.

(** X9.  Whatever the request asks for, the provider is only ever called
    with one of the two configured models. *)
Theorem provider_model_configured (client : VertexClaudeClient.t) (d0 : pydict)
  (o : outcome unit) (tr' : trace) (kw : pydict) :
  NoDup (Dict.keys d0) ->
  handle_request client (JObj d0) [] = (o, tr') ->
  In (ProviderCreate kw) tr' \/ In (ProviderStream kw) tr' ->
  Dict.lookup "model" kw = Some (JStr MODEL)
  \/ Dict.lookup "model" kw = Some (JStr HAIKU_MODEL).
Proof.
  intros Hnd Hrun Hin.
  destruct (handle_request_call _ _ _ _ _ Hrun Hin)
    as (upstream & content & explicit & flag & Hres & Hex & Hcall).
  destruct (call_kwargs_parameters _ _ _ _ _ _ _ Hnd Hex Hcall)
    as (_ & _ & Hmodel & _).
  rewrite Hmodel. unfold resolve_model in Hres.
  destruct (hash_check (Dict.get "model" d0)); cbn [obind] in Hres; [| discriminate].
  injection Hres as <-.
  destruct (mapped_model_configured (Dict.get "model" d0)) as [-> | ->]; auto.
Qed.

(** X10.  No request makes the handler call the provider twice: the trace
    of a whole request, streamed or not, served to its end, holds at most
    one provider call. *)
Theorem at_most_one_provider_call (client : VertexClaudeClient.t) (data : json) :
  length (provider_calls (snd (handle_request client data []))) <= 1.
Proof.
  destruct (handle_request client data []) as [o tr'] eqn:Hrun. cbn [snd].
  apply handle_request_calls in Hrun.
  destruct Hrun as [-> | (d & content & flag & kw & _ & [[_ ->] | [_ ->]])];
    cbn [length]; auto.
Qed.

(** X11.  The handler always returns a response, with status 200, 400 or
    500; a 400 and a streamed response are returned without any provider
    call made so far. *)
Theorem response_statuses (client : VertexClaudeClient.t) (data : json)
  (tr : trace) :
  exists r tr',
    create_message client data tr = (Return r, tr')
    /\ In (status_of r) [200; 400; 500]
    /\ (status_of r = 400 -> tr' = tr)
    /\ (forall g mimetype headers, r = Response g mimetype headers -> tr' = tr).
Proof.
  unfold create_message, try_except.
  destruct (create_message_try client data tr) as [[r | e] tr1] eqn:Htry;
    apply create_message_try_inv in Htry.
  - exists r, tr1. split; [reflexivity |].
    destruct Htry as [[-> Hr] | (d & content & flag & kw & _ & _ & -> & Ho)].
    + destruct r as [body status | g mimetype headers]; cbn [status_of].
      * subst status. cbn [In]. auto.
      * cbn [In]. repeat split; auto.
    + destruct (messages_create kw) as [m | e]; [| discriminate Ho].
      cbn [obind] in Ho.
      destruct (response_json (Created m)) as [body | e]; [| discriminate Ho].
      injection Ho as ->. cbn [status_of In].
      repeat split; auto; discriminate.
  - eexists _, tr1. split; [reflexivity |]. cbn [status_of In].
    repeat split; auto; discriminate.
Qed.

(** X12.  When the provider's stream breaks after some fragments, the
    generator has yielded message_start, content_block_start and one delta
    per fragment that arrived; it leaves the stream manager and raises the
    provider's exception, so none of content_block_stop, message_delta and
    message_stop is sent. *)
Theorem stream_broken_midway (client : VertexClaudeClient.t) (content : string)
  (d kwargs : pydict) (stream : json) (kw : pydict) (frags : list string)
  (e : pyexn) (tr : trace) :
  VertexClaudeClient.call_kwargs client (explicit_stream content d) kwargs
  = Return (stream, kw) ->
  messages_stream kw = Return {| fragments := frags; failure := Some e |} ->
  generate client content d kwargs tr
  = (Raise e,
     (tr ++ stream_head ++ [ProviderStream kw; StreamEnter]
      ++ delta_events 0 frags ++ [StreamExit])%list)
  /\ yields (snd (generate client content d kwargs tr))
     = (yields tr ++ yields stream_head
        ++ map (fun f => sse "content_block_delta" (delta 0 f)) frags)%list.
Proof.
  intros Hcall Hstream.
  assert (Hrun : generate client content d kwargs tr
                 = (Raise e,
                    (tr ++ stream_head ++ [ProviderStream kw; StreamEnter]
                     ++ delta_events 0 frags ++ [StreamExit])%list)).
  { rewrite generate_run, Hcall, Hstream. reflexivity. }
  split; [exact Hrun |]. rewrite Hrun. cbn [snd].
  rewrite !yields_app, yields_delta_events. cbn [yields flat_map app].
  now rewrite app_nil_r.
Qed.

Lemma enters_delta_events (idx : Z) (chunks : list string) :
  filter is_enter (delta_events idx chunks) = [].
Proof. induction chunks as [| c rest IH]; simpl; auto. Qed.

Lemma exits_delta_events (idx : Z) (chunks : list string) :
  filter is_exit (delta_events idx chunks) = [].
Proof. induction chunks as [| c rest IH]; simpl; auto. Qed.

(** X13.  In every run of the generator the stream manager is left as
    often as it is entered, at most once: it is released when the stream
    ends and when it breaks, and never entered when the call fails. *)
Theorem stream_manager_released (client : VertexClaudeClient.t) (content : string)
  (d kwargs : pydict) :
  stream_enters (snd (generate client content d kwargs []))
  = stream_exits (snd (generate client content d kwargs []))
  /\ stream_exits (snd (generate client content d kwargs [])) <= 1.
Proof.
  rewrite generate_run. unfold stream_enters, stream_exits.
  destruct (VertexClaudeClient.call_kwargs client (explicit_stream content d) kwargs)
    as [[flag kw] | e]; [| cbn; auto].
  destruct (messages_stream kw) as [s | e]; [| cbn; auto].
  cbv zeta. destruct (failure s); cbn [snd app stream_head stream_tail filter
                                       is_enter is_exit];
    rewrite ?filter_app, ?enters_delta_events, ?exits_delta_events; cbn; auto.
Qed.

Lemma content_blocks_first_textless (before after : list ContentBlock.t)
  (block : ContentBlock.t) :
  Forall (fun b => ContentBlock.text b <> None) before ->
  ContentBlock.text block = None ->
  content_blocks (before ++ block :: after)
  = Raise (AttributeError (ContentBlock.class_name block) "text").
Proof.
  intros Hbefore Hnone.
  induction Hbefore as [| b before' Hb _ IH]; cbn [app content_blocks].
  - now rewrite Hnone.
  - destruct (ContentBlock.text b); [| now destruct Hb].
    rewrite IH. reflexivity.
Qed.

(** X14.  When the provider's message holds a block without [text] (a tool
    call, say), the non-streaming handler fails after the provider has
    answered: HTTP 500 with the AttributeError of the first such block,
    the one before which every block has a text; one provider call has
    been made. *)
Theorem textless_block_500 (client : VertexClaudeClient.t) (d0 : pydict)
  (content : string) (flag : json) (kw : pydict) (message : Message.t)
  (before after : list ContentBlock.t) (block : ContentBlock.t) (tr : trace) :
  accepted d0 content ->
  truthy (Dict.get_default "stream" (JBool false) d0) = false ->
  VertexClaudeClient.call_kwargs client (explicit_create content (resolved d0))
    (passthrough (resolved d0)) = Return (flag, kw) ->
  messages_create kw = Return message ->
  Message.content message = (before ++ block :: after)%list ->
  Forall (fun b => ContentBlock.text b <> None) before ->
  ContentBlock.text block = None ->
  create_message client (JObj d0) tr
  = (Return (jsonify (error_body ("'" ++ ContentBlock.class_name block
                                  ++ "' object has no attribute 'text'")) 500),
     (tr ++ [ProviderCreate kw])%list).
Proof.
  intros Hacc Hstream Hcall Hcreate Hblocks Hbefore Hnone.
  change ("'" ++ ContentBlock.class_name block ++ "' object has no attribute 'text'")
    with (str (AttributeError (ContentBlock.class_name block) "text")).
  apply create_message_raised.
  rewrite (create_message_try_accepted _ _ _ Hacc), forward_run, Hstream, Hcall, Hcreate.
  cbn [obind response_json].
  rewrite Hblocks, (content_blocks_first_textless _ _ _ Hbefore Hnone). reflexivity.
Qed.

(** X15.  [add_tools] replaces the list of tools and keeps the model; a
    later call of the client sends the new list, when it is not empty, as
    its [tools] parameter whatever the passthrough parameters hold. *)
Theorem add_tools_forwarded (client : VertexClaudeClient.t)
  (earlier new_tools : list json) (explicit starred : pydict) (flag : json)
  (kw : pydict) :
  new_tools <> [] ->
  VertexClaudeClient.call_kwargs (VertexClaudeClient.add_tools new_tools client)
    explicit starred = Return (flag, kw) ->
  Dict.lookup "tools" kw = Some (JArr new_tools)
  /\ VertexClaudeClient.add_tools new_tools (VertexClaudeClient.add_tools earlier client)
     = VertexClaudeClient.add_tools new_tools client
  /\ VertexClaudeClient.model (VertexClaudeClient.add_tools new_tools client)
     = VertexClaudeClient.model client.
Proof.
  intros Hne Hcall. split; [| split; reflexivity].
  unfold VertexClaudeClient.call_kwargs in Hcall.
  destruct (VertexClaudeClient.bind_call explicit starred) as [b | e];
    [| discriminate Hcall].
  cbn [obind] in Hcall. unfold VertexClaudeClient.request_kwargs in Hcall.
  destruct (slice_check (VertexClaudeClient.prompt b)); [| discriminate Hcall].
  cbn [obind] in Hcall.
  destruct (match truthy (VertexClaudeClient.system_prompt b) with
            | true => _ | false => _ end) as [kw1 | e]; [| discriminate Hcall].
  cbn [obind VertexClaudeClient.add_tools VertexClaudeClient.tools] in Hcall.
  injection Hcall as _ <-.
  destruct new_tools as [| tool rest]; [congruence |].
  cbn [truthy]. apply lookup_set_eq.
Qed.

Lemma text_items_member (items ts : list json) (part : pydict) (t : json) :
  text_items items = Return ts ->
  In (JObj part) items ->
  eq_str (Dict.get "type" part) "text" = true ->
  Dict.lookup "text" part = Some t ->
  In t ts.
Proof.
  revert ts. induction items as [| item rest IH]; intros ts Hts Hin Htag Ht;
    [destruct Hin |].
  cbn [text_items] in Hts.
  destruct (get_method item) as [p | e] eqn:Hget; cbn [obind] in Hts;
    [| discriminate Hts].
  assert (item = JObj p) as ->
    by (destruct item; cbn in Hget; try discriminate; now injection Hget as ->).
  destruct (eq_str (Dict.get "type" p) "text") eqn:Hp.
  - destruct (Dict.lookup "text" p) as [t' |] eqn:Ht'; [| discriminate Hts].
    destruct (text_items rest) as [ts' | e]; cbn [obind] in Hts; [| discriminate Hts].
    injection Hts as <-.
    destruct Hin as [E | Hin].
    + injection E as ->. left. congruence.
    + right. now apply IH.
  - destruct Hin as [E | Hin]; [injection E as ->; congruence | now apply IH].
Qed.

Lemma join_from_not_str (i : nat) (sep : string) (ts : list json) (t : json) :
  In t ts -> is_str t = false -> exists e, join_from i sep ts = Raise e.
Proof.
  revert i. induction ts as [| x rest IH]; intros i Hin Hns; [destruct Hin |].
  destruct x as [| | | | s | |]; cbn [join_from]; eauto.
  destruct Hin as [<- | Hin]; [discriminate Hns |].
  destruct rest as [| y rest']; [destruct Hin |].
  destruct (IH (S i) Hin Hns) as [e He]. rewrite He. cbn [obind]. eauto.
Qed.

(** X16.  A list content with a part tagged "text" whose [text] is not a
    string (a number, null, a list) makes the join raise: normalization
    fails and the request is answered with HTTP 500, the provider not
    called. *)
Theorem non_string_text_500 (client : VertexClaudeClient.t) (d fm : pydict)
  (rest items : list json) (part : pydict) (t : json) (tr : trace) :
  Dict.lookup "messages" d = Some (JArr (JObj fm :: rest)) ->
  Dict.lookup "content" fm = Some (JArr items) ->
  In (JObj part) items ->
  eq_str (Dict.get "type" part) "text" = true ->
  Dict.lookup "text" part = Some t ->
  is_str t = false ->
  (exists e, normalize_content (JObj fm) = Raise e)
  /\ (exists e, create_message client (JObj d) tr
                = (Return (jsonify (error_body (str e)) 500), tr)).
Proof.
  intros Hm Hc Hin Htag Ht Hns.
  assert (Hn : exists e, normalize_content (JObj fm) = Raise e).
  { rewrite (normalize_content_list _ _ Hc).
    destruct (text_items items) as [ts | e] eqn:Hts; cbn [obind]; [| eauto].
    pose proof (text_items_member _ _ _ _ Hts Hin Htag Ht) as Hmem.
    destruct (join_from_not_str 0 " " ts t Hmem Hns) as [e He].
    unfold join. rewrite He. cbn [obind]. eauto. }
  split; [exact Hn |]. destruct Hn as [e He].
  assert (Hraise : exists e', create_message_try client (JObj d) tr = (Raise e', tr)).
  { unfold create_message_try. rewrite (truthy_lookup _ _ _ Hm).
    cbn [negb get_method]. unfold bind at 1, lift at 1. unfold bind at 1, lift at 1.
    destruct (resolve_model (Dict.get "model" d)) as [upstream | e']; [| eauto].
    rewrite (handle_messages_first _ _ _ _ (lookup_messages_resolved _ _ _ Hm)).
    unfold bind, lift. rewrite He. eauto. }
  destruct Hraise as [e' He']. exists e'. now apply create_message_raised.
Qed.

Lemma keys_without_not_in (names : list string) (d : pydict) (k : string) :
  In k (Dict.keys (Dict.without names d)) -> str_in k names = false.
Proof.
  unfold Dict.without, Dict.keys. rewrite in_map_iff.
  intros [[k' v] [Hk Hin]]. cbn in Hk. subst k'.
  apply filter_In in Hin. destruct Hin as [_ Hneg]. cbn in Hneg.
  now destruct (str_in k names).
Qed.

Lemma find_agree {A} (f g : A -> bool) (l : list A) :
  (forall x, In x l -> f x = g x) -> find f l = find g l.
Proof.
  induction l as [| x rest IH]; intros H; [reflexivity |].
  cbn [find]. rewrite (H x (or_introl eq_refl)), IH; [reflexivity |].
  intros y Hy. apply H. now right.
Qed.

(** X17.  The [stream] flag changes which operation of the provider is
    called and nothing else: for the passthrough parameters of a request,
    the streaming call is accepted exactly when the non-streaming call
    is, with the same keyword arguments. *)
Theorem stream_flag_parameters (client : VertexClaudeClient.t) (content : string)
  (d : pydict) (kw : pydict) :
  VertexClaudeClient.call_kwargs client (explicit_stream content d) (passthrough d)
  = Return (JBool true, kw)
  <-> VertexClaudeClient.call_kwargs client (explicit_create content d) (passthrough d)
      = Return (JBool false, kw).
Proof.
  assert (Hfirst : Dict.first_key_in (Dict.keys (explicit_stream content d))
                     (passthrough d)
                   = Dict.first_key_in (Dict.keys (explicit_create content d))
                       (passthrough d)).
  { unfold Dict.first_key_in. apply find_agree. intros k Hk.
    unfold passthrough in Hk. apply keys_without_not_in in Hk.
    cbn [str_in existsb] in Hk.
    apply orb_false_iff in Hk. destruct Hk as [_ Hk].
    apply orb_false_iff in Hk. destruct Hk as [_ Hk].
    apply orb_false_iff in Hk. destruct Hk as [Hk _].
    cbn [explicit_stream explicit_create Dict.keys map fst str_in existsb].
    rewrite Hk. reflexivity. }
  assert (Hno : Dict.lookup "stream" (passthrough d) = None)
    by (unfold passthrough; now rewrite lookup_without).
  unfold VertexClaudeClient.call_kwargs, VertexClaudeClient.bind_call.
  rewrite Hfirst.
  destruct (Dict.first_key_in (Dict.keys (explicit_create content d)) (passthrough d));
    [cbn [obind]; split; discriminate |].
  unfold Dict.mem.
  cbn [explicit_stream explicit_create app Dict.lookup String.eqb Ascii.eqb Bool.eqb].
  destruct (Dict.lookup "self" (passthrough d)); [cbn [obind]; split; discriminate |].
  cbn [obind]. unfold VertexClaudeClient.request_kwargs.
  cbn [VertexClaudeClient.prompt VertexClaudeClient.system_prompt
       VertexClaudeClient.max_tokens VertexClaudeClient.kwargs
       VertexClaudeClient.stream slice_check obind].
  unfold Dict.get_default, Dict.without.
  cbn [Dict.lookup String.eqb Ascii.eqb Bool.eqb filter fst str_in existsb orb negb].
  rewrite Hno.
  match goal with
  | |- (obind ?c _ = _) <-> (obind ?c _ = _) => destruct c as [kw1 | e]
  end; cbn [obind]; split; intros H; try discriminate H;
    injection H as <-; reflexivity.
Qed.

(** ** The two clients *)

(** X18.  Called without passthrough parameters, the client of [app.py]
    builds the keyword arguments the client of [client.py] builds from the
    same prompt, [max_tokens] and system prompt, and makes the same
    provider call, as long as the system prompt is falsy, a string or a
    list; on any other system prompt only the client of [app.py] raises,
    before the provider is called. *)
Theorem clients_agree (client : VertexClaudeClient.t) (prompt : string)
  (max_tokens : option json) (system_prompt : json) (tr : trace) :
  (truthy system_prompt = false \/ is_str system_prompt = true
   \/ is_list system_prompt = true ->
   VertexClaudeClient.call_kwargs client
     (plain_keywords prompt max_tokens system_prompt) []
   = Return (JBool false,
             ClaudeClient.request_kwargs (plain_client client) (JStr prompt)
               max_tokens system_prompt)
   /\ snd (client_create_message client
             (plain_keywords prompt max_tokens system_prompt) [] tr)
      = snd (ClaudeClient.create_message messages_create (plain_client client)
               (JStr prompt) max_tokens system_prompt tr))
  /\ (truthy system_prompt = true -> is_str system_prompt = false ->
      is_list system_prompt = false ->
      exists e,
        client_create_message client
          (plain_keywords prompt max_tokens system_prompt) [] tr
        = (Raise e, tr)).
Proof.
  assert (Hbind : VertexClaudeClient.bind_call
                    (plain_keywords prompt max_tokens system_prompt) []
                  = Return {| VertexClaudeClient.prompt := JStr prompt;
                              VertexClaudeClient.max_tokens :=
                                ClaudeClient.max_tokens_arg max_tokens;
                              VertexClaudeClient.system_prompt := system_prompt;
                              VertexClaudeClient.stream := JBool false;
                              VertexClaudeClient.kwargs := [] |})
    by (destruct max_tokens; reflexivity).
  split.
  - intros Hsys.
    assert (Hcall : VertexClaudeClient.call_kwargs client
                      (plain_keywords prompt max_tokens system_prompt) []
                    = Return (JBool false,
                              ClaudeClient.request_kwargs (plain_client client)
                                (JStr prompt) max_tokens system_prompt)).
    { unfold VertexClaudeClient.call_kwargs. rewrite Hbind. cbn [obind].
      unfold VertexClaudeClient.request_kwargs, ClaudeClient.request_kwargs.
      cbn [VertexClaudeClient.prompt VertexClaudeClient.system_prompt
           VertexClaudeClient.max_tokens VertexClaudeClient.kwargs
           VertexClaudeClient.stream slice_check obind plain_client
           ClaudeClient.model ClaudeClient.tools].
      destruct (truthy system_prompt) eqn:Ht.
      - destruct Hsys as [Hf | [Hs | Hl]]; [discriminate Hf | |];
          destruct system_prompt; try discriminate; reflexivity.
      - reflexivity. }
    split; [exact Hcall |].
    rewrite client_create_message_run, Hcall. cbn [truthy snd].
    unfold ClaudeClient.create_message, bind, emit, lift.
    now destruct (messages_create _).
  - intros Ht Hns Hnl.
    rewrite client_create_message_run. unfold VertexClaudeClient.call_kwargs.
    rewrite Hbind. cbn [obind]. unfold VertexClaudeClient.request_kwargs.
    cbn [VertexClaudeClient.prompt VertexClaudeClient.system_prompt slice_check obind].
    rewrite Ht.
    destruct system_prompt; try discriminate; cbn [slice_check obind]; eauto.
Qed.

Lemma for_texts_run (texts : list string) (tr : trace) :
  ClaudeClient.for_texts texts tr = (Return tt, (tr ++ map Yield texts)%list).
Proof.
  revert tr. induction texts as [| text rest IH]; intros tr.
  - cbn. now rewrite app_nil_r.
  - cbn [ClaudeClient.for_texts map]. unfold bind, emit. rewrite IH.
    now rewrite <- app_assoc.
Qed.

(** X19.  Iterated to its end, [stream_message] calls the provider once
    and yields one chunk per fragment, in order, between entering and
    leaving the stream manager; when the stream breaks it has yielded the
    fragments that arrived, leaves the manager and raises; when the call
    fails nothing is yielded or entered. *)
Theorem stream_message_chunks (self : ClaudeClient.t) (prompt : json)
  (max_tokens : option json) (system_prompt : json) (tr : trace) :
  ClaudeClient.stream_message messages_stream self prompt max_tokens system_prompt tr
  = let kw := ClaudeClient.request_kwargs self prompt max_tokens system_prompt in
    match messages_stream kw with
    | Raise e => (Raise e, (tr ++ [ProviderStream kw])%list)
    | Return s =>
        (match failure s with Some e => Raise e | None => Return tt end,
         (tr ++ [ProviderStream kw; StreamEnter] ++ map Yield (fragments s)
          ++ [StreamExit])%list)
    end.
Proof.
  unfold ClaudeClient.stream_message. cbv zeta.
  unfold bind at 1, emit at 1. unfold bind at 1, lift at 1.
  destruct (messages_stream _) as [s | e]; [| reflexivity].
  unfold with_manager, bind. rewrite for_texts_run.
  destruct (failure s); unfold raise, ret; f_equal; rewrite <- !app_assoc; reflexivity.
Qed.

(** ** Requests that reach the provider *)

Lemma lookup_key_some (k : string) (d : pydict) :
  In k (Dict.keys d) -> Dict.lookup k d <> None.
Proof.
  induction d as [| [k' v'] rest IH]; cbn [Dict.keys map fst In Dict.lookup];
    [tauto |].
  intros [-> | Hin].
  - rewrite String.eqb_refl. discriminate.
  - destruct (String.eqb k k'); [discriminate | now apply IH].
Qed.

Lemma first_key_in_absent (names : list string) (d : pydict) :
  (forall k, str_in k names = true -> Dict.lookup k d = None) ->
  Dict.first_key_in names d = None.
Proof.
  intros Habsent. unfold Dict.first_key_in.
  destruct (find (fun k => str_in k names) (Dict.keys d)) as [k |] eqn:Hfind;
    [| reflexivity].
  apply find_some in Hfind. destruct Hfind as [Hin Hk].
  now destruct (lookup_key_some _ _ Hin (Habsent k Hk)).
Qed.

(** The client call of the handler is accepted when no passthrough
    parameter takes the name of a keyword and the system prompt can be
    logged. *)
Lemma call_kwargs_accepted (client : VertexClaudeClient.t) (explicit : pydict)
  (content : string) (d : pydict) :
  explicit = explicit_create content d \/ explicit = explicit_stream content d ->
  (forall k, In k ["prompt"; "system_prompt"; "self"] ->
             Dict.lookup k (passthrough d) = None) ->
  truthy (Dict.get "system" d) = false \/ is_str (Dict.get "system" d) = true
  \/ is_list (Dict.get "system" d) = true ->
  exists flag kw,
    VertexClaudeClient.call_kwargs client explicit (passthrough d) = Return (flag, kw).
Proof.
  intros Hex Habsent Hsys.
  assert (Hstream : Dict.lookup "stream" (passthrough d) = None)
    by (unfold passthrough; now rewrite lookup_without).
  assert (Hfirst : Dict.first_key_in (Dict.keys explicit) (passthrough d) = None).
  { apply first_key_in_absent. intros k Hk.
    destruct Hex as [-> | ->];
      cbn [explicit_create explicit_stream Dict.keys map fst str_in existsb] in Hk;
      repeat (apply orb_true_iff in Hk; destruct Hk as [Hk | Hk]);
      try discriminate Hk; apply String.eqb_eq in Hk; subst k;
      try assumption; apply Habsent; cbn [In]; auto. }
  assert (Hself : Dict.lookup "self" (passthrough d) = None)
    by (apply Habsent; cbn [In]; auto).
  assert (Hbound : exists b,
             VertexClaudeClient.bind_call explicit (passthrough d) = Return b).
  { unfold VertexClaudeClient.bind_call. rewrite Hfirst.
    unfold Dict.mem. rewrite !lookup_app, Hself.
    destruct Hex as [-> | ->];
      cbn [explicit_create explicit_stream Dict.lookup String.eqb Ascii.eqb Bool.eqb];
      eauto. }
  destruct Hbound as [b Hb].
  destruct (bind_call_bound _ _ _ _ _ Hex Hb) as (Hprompt & Hsystem & _).
  unfold VertexClaudeClient.call_kwargs. rewrite Hb. cbn [obind].
  unfold VertexClaudeClient.request_kwargs. rewrite Hprompt, Hsystem.
  cbn [slice_check obind].
  destruct (truthy (Dict.get "system" d)) eqn:Ht; [| cbn [obind]; eauto].
  destruct Hsys as [Hf | [Hs | Hl]]; [discriminate Hf | |];
    destruct (Dict.get "system" d); try discriminate;
    cbn [slice_check obind]; eauto.
Qed.

Lemma provider_calls_streamed (kw : pydict) (chunks : list string) (rest : trace) :
  provider_calls
    ([] ++ stream_head ++ [ProviderStream kw; StreamEnter]
     ++ delta_events 0 chunks ++ rest)%list
  = ProviderStream kw :: provider_calls rest.
Proof.
  unfold stream_head. cbn [app provider_calls filter is_provider_call].
  fold (provider_calls (delta_events 0 chunks ++ rest)%list).
  now rewrite provider_calls_app, provider_calls_delta_events.
Qed.

(** X20.  A request that passes validation, has no field named [prompt],
    [system_prompt] or [self], and whose [system] is falsy, a string or a
    list, reaches the provider exactly once, whatever the provider then
    does: by [stream] when its [stream] field is truthy, by [create]
    otherwise. *)
Theorem well_formed_request_forwarded (client : VertexClaudeClient.t)
  (d0 : pydict) (content : string) :
  accepted d0 content ->
  (forall k, In k ["prompt"; "system_prompt"; "self"] -> Dict.lookup k d0 = None) ->
  truthy (Dict.get "system" d0) = false \/ is_str (Dict.get "system" d0) = true
  \/ is_list (Dict.get "system" d0) = true ->
  exists kw,
    provider_calls (snd (handle_request client (JObj d0) []))
    = [ if truthy (Dict.get_default "stream" (JBool false) d0)
        then ProviderStream kw else ProviderCreate kw ].
Proof.
  intros Hacc Habsent Hsys.
  assert (Hsys' : Dict.get "system" (resolved d0) = Dict.get "system" d0)
    by (unfold Dict.get, resolved; now apply get_default_resolved).
  assert (Habsent' : forall k, In k ["prompt"; "system_prompt"; "self"] ->
                               Dict.lookup k (passthrough (resolved d0)) = None).
  { intros k Hk. rewrite lookup_passthrough_resolved; [now apply Habsent |].
    destruct Hk as [<- | [<- | [<- | []]]]; reflexivity. }
  rewrite <- Hsys' in Hsys.
  unfold handle_request, bind, create_message, try_except.
  rewrite (create_message_try_accepted _ _ _ Hacc), forward_run.
  destruct (truthy (Dict.get_default "stream" (JBool false) d0)).
  - destruct (call_kwargs_accepted client _ content (resolved d0)
                (or_intror eq_refl) Habsent' Hsys) as (flag & kw & Hcall).
    exists kw. cbn [serve]. rewrite generate_run, Hcall.
    destruct (messages_stream kw) as [s | e]; [| reflexivity].
    cbv zeta. destruct (failure s); cbn [snd];
      rewrite <- ?app_assoc; rewrite provider_calls_streamed; reflexivity.
  - destruct (call_kwargs_accepted client _ content (resolved d0)
                (or_introl eq_refl) Habsent' Hsys) as (flag & kw & Hcall).
    exists kw. rewrite Hcall.
    destruct (messages_create kw) as [m | e]; cbn [obind]; [| reflexivity].
    destruct (response_json (Created m)); reflexivity.
Qed.

Lemma content_blocks_texts (blocks : list ContentBlock.t) :
  Forall (fun block => ContentBlock.text block <> None) blocks ->
  exists js, content_blocks blocks = Return js /\ Forall2 block_json blocks js.
Proof.
  induction 1 as [| block rest Hblock _ IH].
  - exists []. split; [reflexivity | constructor].
  - destruct IH as (js & Hjs & Hall). cbn [content_blocks].
    destruct (ContentBlock.text block) as [t |] eqn:Ht; [| congruence].
    rewrite Hjs. cbn [obind]. eexists. split; [reflexivity |].
    constructor; [exists t; auto | assumption].
Qed.

(** X21.  When the provider answers a non-streaming request with a message
    all of whose blocks have a text, the handler returns HTTP 200 with the
    message's fields, one object of type and text per block in order,
    after that one provider call. *)
Theorem text_message_200 (client : VertexClaudeClient.t) (d0 : pydict)
  (content : string) (flag : json) (kw : pydict) (message : Message.t)
  (tr : trace) :
  accepted d0 content ->
  truthy (Dict.get_default "stream" (JBool false) d0) = false ->
  VertexClaudeClient.call_kwargs client (explicit_create content (resolved d0))
    (passthrough (resolved d0)) = Return (flag, kw) ->
  messages_create kw = Return message ->
  Forall (fun block => ContentBlock.text block <> None) (Message.content message) ->
  exists blocks,
    Forall2 block_json (Message.content message) blocks
    /\ create_message client (JObj d0) tr
       = (Return (jsonify
                    (JObj [ ("id", JStr (Message.id message));
                            ("content", JArr blocks);
                            ("model", JStr (Message.model message));
                            ("role", JStr (Message.role message));
                            ("stop_reason", opt_str (Message.stop_reason message));
                            ("stop_sequence", opt_str (Message.stop_sequence message));
                            ("type", JStr (Message.type message));
                            ("usage", usage_json (Message.usage message)) ])
                    200),
          (tr ++ [ProviderCreate kw])%list).
Proof.
  intros Hacc Hstream Hcall Hcreate Htexts.
  destruct (content_blocks_texts _ Htexts) as (blocks & Hblocks & Hall).
  exists blocks. split; [assumption |].
  apply create_message_returned.
  rewrite (create_message_try_accepted _ _ _ Hacc), forward_run, Hstream, Hcall, Hcreate.
  cbn [obind response_json]. rewrite Hblocks. reflexivity.
Qed.

End Gateway.

(** ** The properties on concrete requests *)

Abbreviation demo f :=
  (f "claude-primary" "claude-fast" stub_create stub_stream stub_dumps 1700000000000%Z)
  (only parsing).

Abbreviation failing f :=
  (f "claude-primary" "claude-fast" failing_create failing_stream stub_dumps
     1700000000000%Z)
  (only parsing).

Abbreviation the_client := (claude_client "claude-primary") (only parsing).

(** C1 on [streaming_request], whose provider stream yields "Hel", "lo". *)
Lemma streaming_event_sequence_witness :
  exists tr',
    demo handle_request the_client (JObj streaming_request) [] = (Return tt, tr')
    /\ yields tr'
       = spec_events stub_dumps "claude-primary" "msg_1700000000000" ["Hel"; "lo"]
    /\ provider_calls tr' = [ProviderStream streaming_call].
Proof.
  destruct (streaming_event_sequence "claude-primary" stub_create stub_stream
              stub_dumps 1700000000000%Z the_client "a b"
              (Dict.set "model" (JStr "claude-primary") streaming_request)
              (passthrough (Dict.set "model" (JStr "claude-primary") streaming_request))
              (JBool true) streaming_call ["Hel"; "lo"] [] eq_refl eq_refl)
    as (tr' & Hrun & Hyields & Htrace).
  exists tr'. split; [exact Hrun | split; [exact Hyields |]].
  rewrite Htrace. reflexivity.
Defined.

(** C3 on an unknown alias and on a request without a model field. *)
Lemma model_alias_resolution_witness :
  resolve_model "claude-primary" "claude-fast" (JStr "gpt-4") = Return "claude-primary"
  /\ resolve_model "claude-primary" "claude-fast"
       (Dict.get "model" [("messages", JArr [])])
     = Return "claude-primary".
Proof.
  destruct (model_alias_resolution "claude-primary" "claude-fast" stub_create
              stub_stream stub_dumps 1700000000000%Z)
    as (_ & _ & _ & _ & Hother & Habsent & _).
  split.
  - apply Hother; [exact I |].
    intros alias E. injection E as <-. simpl. intuition discriminate.
  - apply Habsent. reflexivity.
Defined.


(** C6 (amended) on two requests with an empty list of messages, one with
    an alias and one with an object as model. *)
Lemma empty_messages_400_witness :
  demo create_message the_client
    (JObj [("model", JStr "claude-3-haiku-20240307"); ("messages", JArr [])]) []
  = (Return (jsonify (error_body "No messages provided") 400), [])
  /\ demo create_message the_client
       (JObj [("messages", JArr []); ("model", JObj [("name", JStr "haiku")])]) []
     = (Return (jsonify (error_body "unhashable type: 'dict'") 500), []).
Proof.
  split.
  - apply (proj1 (empty_messages_400 "claude-primary" "claude-fast" stub_create
                    stub_stream stub_dumps 1700000000000%Z the_client
                    [("model", JStr "claude-3-haiku-20240307"); ("messages", JArr [])]
                    [] eq_refl)).
    exact I.
  - apply (proj2 (empty_messages_400 "claude-primary" "claude-fast" stub_create
                    stub_stream stub_dumps 1700000000000%Z the_client
                    [("messages", JArr []); ("model", JObj [("name", JStr "haiku")])]
                    [] eq_refl)).
    intros H. exact H.
Defined.

(** C6, as stated, fails: a request with an empty [messages] array and a
    list as [model] is answered with HTTP 500, not 400; the provider is
    not called. *)
Lemma empty_messages_listed_model_counterexample :
  Dict.lookup "messages" [("model", JArr []); ("messages", JArr [])] = Some (JArr [])
  /\ demo create_message the_client
       (JObj [("model", JArr []); ("messages", JArr [])]) []
     = (Return (jsonify (error_body "unhashable type: 'list'") 500), [])
  /\ (forall body,
        demo create_message the_client
          (JObj [("model", JArr []); ("messages", JArr [])]) []
        <> (Return (jsonify body 400), [])).
Proof.
  split; [reflexivity |]. split; [reflexivity |].
  intros body. discriminate.
Qed.

(** C7 (amended) on a first message whose content is a number. *)
Lemma invalid_content_400_witness :
  demo create_message the_client
    (JObj [("messages", JArr [user_message (JInt 5)])]) []
  = (Return (jsonify (error_body "Invalid message content format") 400), []).
Proof.
  apply (proj1 (invalid_content_400 "claude-primary" "claude-fast" stub_create
                  stub_stream stub_dumps 1700000000000%Z) the_client
           [("messages", JArr [user_message (JInt 5)])]
           [("role", JStr "user"); ("content", JInt 5)] [] []);
    [reflexivity | exact I | reflexivity | reflexivity].
Defined.

(** C7, as stated, fails: a content that is a list, but not a list of
    typed parts, is neither refused with 400 nor accepted; the lookup of
    the tag on its first element raises and the answer is HTTP 500. *)
Lemma list_of_numbers_counterexample :
  is_str (JArr [JInt 1]) = false
  /\ forallb typed_part [JInt 1] = false
  /\ demo create_message the_client
       (JObj [("messages", JArr [user_message (JArr [JInt 1])])]) []
     = (Return (jsonify (error_body "'int' object has no attribute 'get'") 500), [])
  /\ demo create_message the_client
       (JObj [("messages", JArr [user_message (JArr [JInt 1])])]) []
     <> (Return (jsonify (error_body "Invalid message content format") 400), []).
Proof.
  split; [reflexivity |]. split; [reflexivity |]. split; [reflexivity |].
  discriminate.
Qed.

(** C9 on [long_request] and [haiku_request], which share their first
    message. *)
Lemma later_messages_ignored_witness :
  demo create_message the_client (JObj long_request) []
  = demo create_message the_client (JObj haiku_request) []
  /\ demo handle_request the_client (JObj long_request) []
     = demo handle_request the_client (JObj haiku_request) [].
Proof.
  apply (later_messages_ignored "claude-primary" "claude-fast" stub_create stub_stream
           stub_dumps 1700000000000%Z the_client long_request haiku_request
           (user_message (JStr "hi"))
           [ JObj [("role", JStr "assistant"); ("content", JStr "hello")];
             user_message (JStr "and then?") ]
           [] []);
    reflexivity.
Defined.

(** C10 on a text part without text, and on a list with an image part
    only. *)
Lemma text_part_without_text_500_witness :
  (exists e,
      demo create_message the_client
        (JObj [("messages", JArr [user_message (JArr [JObj [("type", JStr "text")]])])])
        []
      = (Return (jsonify (error_body (str e)) 500), []))
  /\ normalize_content (user_message (JArr [image_part])) = Return (Prompt "").
Proof.
  destruct (text_part_without_text_500 "claude-primary" "claude-fast" stub_create
              stub_stream stub_dumps 1700000000000%Z) as (Hmissing & Hnone).
  split.
  - apply (Hmissing the_client
             [("messages", JArr [user_message (JArr [JObj [("type", JStr "text")]])])]
             [("role", JStr "user"); ("content", JArr [JObj [("type", JStr "text")]])]
             [] [JObj [("type", JStr "text")]] [("type", JStr "text")] []);
      try reflexivity.
    left. reflexivity.
  - apply (Hnone the_client
             [("messages", JArr [user_message (JArr [image_part])])]
             [("role", JStr "user"); ("content", JArr [image_part])]
             [] [image_part]); reflexivity.
Defined.

Lemma NoDup_haiku_request : NoDup (Dict.keys haiku_request).
Proof. repeat constructor; simpl; intuition discriminate. Qed.

(** C2 (amended) on [haiku_request]. *)
Lemma forwarded_parameters_witness :
  NoDup (Dict.keys haiku_request)
  /\ demo handle_request the_client (JObj haiku_request) []
     = (Return tt, [ProviderCreate haiku_call])
  /\ Dict.lookup "temperature" haiku_call = Some (JInt 1)
  /\ Dict.lookup "max_tokens" haiku_call = Some (JInt 256)
  /\ Dict.lookup "stream" haiku_call = None
  /\ Dict.lookup "model" haiku_call = Some (JStr "claude-fast").
Proof.
  assert (Hrun : demo handle_request the_client (JObj haiku_request) []
                 = (Return tt, [ProviderCreate haiku_call])) by reflexivity.
  destruct (forwarded_parameters "claude-primary" "claude-fast" stub_create
              stub_stream stub_dumps 1700000000000%Z the_client haiku_request
              (Return tt) [ProviderCreate haiku_call] haiku_call
              NoDup_haiku_request Hrun (or_introl (or_introl eq_refl)))
    as (upstream & content & Hres & Hpass & Hstream & _ & Hmodel & _).
  split; [exact NoDup_haiku_request | split; [exact Hrun |]].
  split; [| split; [| split]].
  - apply Hpass; [reflexivity | reflexivity | discriminate].
  - apply Hpass; [reflexivity | reflexivity | discriminate].
  - exact Hstream.
  - injection Hres as <-. exact Hmodel.
Defined.

(** C2, as stated, fails: [model] is one of the passthrough parameters.
    For [haiku_request] the keyword arguments the client receives hold
    the key with the resolved identifier, and the provider is called with
    it although the client's own model is the primary one. *)
Lemma passthrough_model_counterexample :
  (exists b,
      VertexClaudeClient.bind_call
        (explicit_create "hi" (Dict.set "model" (JStr "claude-fast") haiku_request))
        (passthrough (Dict.set "model" (JStr "claude-fast") haiku_request))
      = Return b
      /\ Dict.lookup "model" (VertexClaudeClient.kwargs b) = Some (JStr "claude-fast")
      /\ ~ (forall k, In k spec_reserved ->
                      Dict.lookup k (VertexClaudeClient.kwargs b) = None))
  /\ snd (demo handle_request the_client (JObj haiku_request) [])
     = [ProviderCreate haiku_call]
  /\ Dict.lookup "model" haiku_call = Some (JStr "claude-fast")
  /\ VertexClaudeClient.model the_client = "claude-primary".
Proof.
  split; [| repeat split].
  eexists. split; [reflexivity |]. split; [reflexivity |].
  intros Hall. specialize (Hall "model"). simpl in Hall.
  assert (H : Some (JStr "claude-fast") = None) by (apply Hall; auto).
  discriminate H.
Qed.

(** C4 (amended) on [haiku_request] and the fixed message of the stub. *)
Lemma chat_response_shape_witness :
  exists body fields tr',
    demo create_message the_client (JObj haiku_request) []
    = (Return (jsonify body 200), tr')
    /\ tr' = [ProviderCreate haiku_call]
    /\ body = JObj fields
    /\ Dict.keys fields = response_fields.
Proof.
  assert (Hrun : exists body,
             demo create_message the_client (JObj haiku_request) []
             = (Return (jsonify body 200), [ProviderCreate haiku_call]))
    by (eexists; reflexivity).
  destruct Hrun as [body Hrun].
  destruct (chat_response_shape "claude-primary" "claude-fast" stub_create
              stub_stream stub_dumps 1700000000000%Z the_client
              (JObj haiku_request) body [] [ProviderCreate haiku_call] Hrun)
    as (kw & message & blocks & fields & Htr & _ & _ & Hbody & Hkeys & _).
  exists body, fields, [ProviderCreate haiku_call]. auto.
Defined.

(** C4, as stated, fails: the body returned for [haiku_request] has the
    field [type], which is not one of the fields the specification
    enumerates. *)
Lemma chat_response_extra_field :
  exists fields,
    demo create_message the_client (JObj haiku_request) []
    = (Return (jsonify (JObj fields) 200), [ProviderCreate haiku_call])
    /\ Dict.lookup "type" fields = Some (JStr "message")
    /\ ~ (forall k, In k (Dict.keys fields) -> In k spec_response_fields).
Proof.
  eexists. split; [reflexivity |]. split; [reflexivity |].
  intros Hall.
  assert (H : In "type" spec_response_fields).
  { apply Hall. unfold Dict.keys. cbn [map fst]. do 6 right. left. reflexivity. }
  unfold spec_response_fields in H. cbn [In] in H.
  repeat (destruct H as [H | H]; [discriminate H |]). exact H.
Qed.

(** C8 (amended) on [haiku_request] with a provider that fails. *)
Lemma handler_failure_500_witness :
  failing create_message_try the_client (JObj haiku_request) []
  = (Raise (ProviderError "upstream unavailable"), [ProviderCreate haiku_call])
  /\ failing create_message the_client (JObj haiku_request) []
     = (Return (jsonify (error_body "upstream unavailable") 500),
        [ProviderCreate haiku_call]).
Proof.
  assert (Htry : failing create_message_try the_client (JObj haiku_request) []
                 = (Raise (ProviderError "upstream unavailable"),
                    [ProviderCreate haiku_call])) by reflexivity.
  split; [exact Htry |].
  destruct (handler_failure_500 "claude-primary" "claude-fast" failing_create
              failing_stream stub_dumps 1700000000000%Z) as (Hcaught & _ & _).
  exact (proj1 (Hcaught the_client (JObj haiku_request) [] _ _ Htry)).
Defined.

(** C8, as stated, fails for a streamed request: when the provider's
    stream call raises, the handler has already returned the streamed
    response (status 200); the exception is raised when the body is
    iterated, after the first two events, and no 500 is produced. *)
Lemma streaming_failure_counterexample :
  exists g mimetype headers,
    failing create_message the_client (JObj streaming_request) []
    = (Return (Response g mimetype headers), [])
    /\ status_of (Response g mimetype headers) = 200
    /\ g []
       = (Raise (ProviderError "upstream unavailable"),
          (stream_head "claude-primary" stub_dumps 1700000000000%Z
           ++ [ProviderStream streaming_call])%list)
    /\ failing create_message the_client (JObj streaming_request) []
       <> (Return (jsonify (error_body "upstream unavailable") 500), []).
Proof.
  eexists _, _, _. split; [reflexivity |]. split; [reflexivity |].
  split; [reflexivity |]. discriminate.
Qed.

(** ** The further properties on concrete requests *)

Abbreviation breaking f :=
  (f "claude-primary" "claude-fast" stub_create breaking_stream stub_dumps
     1700000000000%Z)
  (only parsing).

Abbreviation tooling f :=
  (f "claude-primary" "claude-fast" tool_create stub_stream stub_dumps 1700000000000%Z)
  (only parsing).

Lemma accepted_hi (d0 : pydict) :
  scalar (Dict.get "model" d0) ->
  Dict.lookup "messages" d0 = Some (JArr [user_message (JStr "hi")]) ->
  accepted d0 "hi".
Proof. intros Hs Hm. split; [exact Hs |]. eexists _, _. split; [exact Hm | reflexivity]. Qed.

Lemma NoDup_plain_request : NoDup (Dict.keys plain_request).
Proof. repeat constructor; simpl; intuition discriminate. Qed.

(** X1 on a list and on null. *)
Lemma body_not_an_object_witness :
  demo create_message the_client (JArr [JInt 1]) []
  = (Return (jsonify (error_body "'list' object has no attribute 'get'") 500), [])
  /\ demo create_message the_client JNull []
     = (Return (jsonify (error_body "No JSON data provided") 400), []).
Proof.
  split.
  - apply (body_not_an_object "claude-primary" "claude-fast" stub_create stub_stream
             stub_dumps 1700000000000%Z the_client (JArr [JInt 1]) []).
    discriminate.
  - apply (body_not_an_object "claude-primary" "claude-fast" stub_create stub_stream
             stub_dumps 1700000000000%Z the_client JNull []).
    discriminate.
Defined.

(** X2 on a request without [messages] and on the empty object. *)
Lemma no_messages_400_witness :
  demo create_message the_client (JObj [("model", JStr "gpt-4")]) []
  = (Return (jsonify (error_body "No messages provided") 400), [])
  /\ demo create_message the_client (JObj []) []
     = (Return (jsonify (error_body "No JSON data provided") 400), []).
Proof.
  split.
  - apply (no_messages_400 "claude-primary" "claude-fast" stub_create stub_stream
             stub_dumps 1700000000000%Z the_client [("model", JStr "gpt-4")] []);
      [exact I | reflexivity].
  - apply (no_messages_400 "claude-primary" "claude-fast" stub_create stub_stream
             stub_dumps 1700000000000%Z the_client [] []);
      [exact I | reflexivity].
Defined.

(** X3 on [messages] given as a string, as a number, as an object and as a
    list of numbers. *)
Lemma malformed_messages_500_witness :
  demo create_message the_client (JObj [("messages", JStr "hi")]) []
  = (Return (jsonify (error_body "'str' object has no attribute 'get'") 500), [])
  /\ demo create_message the_client (JObj [("messages", JInt 7)]) []
     = (Return (jsonify (error_body "'int' object is not subscriptable") 500), [])
  /\ demo create_message the_client
       (JObj [("messages", JObj [("role", JStr "user")])]) []
     = (Return (jsonify (error_body "0") 500), [])
  /\ demo create_message the_client (JObj [("messages", JArr [JInt 1; JInt 2])]) []
     = (Return (jsonify (error_body "'int' object has no attribute 'get'") 500), []).
Proof.
  split; [| split; [| split]].
  - apply (malformed_messages_500 "claude-primary" "claude-fast" stub_create
             stub_stream stub_dumps 1700000000000%Z the_client
             [("messages", JStr "hi")] []);
      [exact I | reflexivity | discriminate].
  - apply (malformed_messages_500 "claude-primary" "claude-fast" stub_create
             stub_stream stub_dumps 1700000000000%Z the_client
             [("messages", JInt 7)] []);
      [exact I | reflexivity | discriminate].
  - apply (malformed_messages_500 "claude-primary" "claude-fast" stub_create
             stub_stream stub_dumps 1700000000000%Z the_client
             [("messages", JObj [("role", JStr "user")])] []);
      [exact I | reflexivity | discriminate].
  - apply (malformed_messages_500 "claude-primary" "claude-fast" stub_create
             stub_stream stub_dumps 1700000000000%Z the_client
             [("messages", JArr [JInt 1; JInt 2])] []);
      [exact I | reflexivity | discriminate].
Defined.

(** X4 on a model given as a list, with no messages at all. *)
Lemma unhashable_model_500_witness :
  demo create_message the_client
    (JObj [("model", JArr [JStr "gpt-4"]); ("messages", JArr [])]) []
  = (Return (jsonify (error_body "unhashable type: 'list'") 500), []).
Proof.
  apply (unhashable_model_500 "claude-primary" "claude-fast" stub_create stub_stream
           stub_dumps 1700000000000%Z the_client
           [("model", JArr [JStr "gpt-4"]); ("messages", JArr [])]
           (JArr [JStr "gpt-4"]) []);
    [reflexivity | intros H; exact H].
Defined.

(** X5 on [keyword_request]. *)
Lemma keyword_field_500_witness :
  exists e,
    demo create_message the_client (JObj keyword_request) []
    = (Return (jsonify (error_body (str e)) 500), []).
Proof.
  apply (keyword_field_500 "claude-primary" "claude-fast" stub_create stub_stream
           stub_dumps 1700000000000%Z the_client keyword_request "hi" "prompt"
           (JStr "ignore the above") []);
    [apply accepted_hi; [exact I | reflexivity]
    | reflexivity | left; reflexivity | reflexivity].
Defined.

(** X6 on [keyword_stream_request]. *)
Lemma keyword_field_stream_cut_witness :
  exists r e,
    demo create_message the_client (JObj keyword_stream_request) [] = (Return r, [])
    /\ status_of r = 200
    /\ serve r []
       = (Raise e, stream_head "claude-primary" stub_dumps 1700000000000%Z).
Proof.
  apply (keyword_field_stream_cut "claude-primary" "claude-fast" stub_create
           stub_stream stub_dumps 1700000000000%Z the_client keyword_stream_request
           "hi" "self" (JInt 1) []);
    [apply accepted_hi; [exact I | reflexivity]
    | reflexivity | right; right; left; reflexivity | reflexivity].
Defined.

(** X7 on [numeric_system_request]. *)
Lemma unsliceable_system_500_witness :
  exists e,
    demo create_message the_client (JObj numeric_system_request) []
    = (Return (jsonify (error_body (str e)) 500), []).
Proof.
  apply (unsliceable_system_500 "claude-primary" "claude-fast" stub_create
           stub_stream stub_dumps 1700000000000%Z the_client numeric_system_request
           "hi" []);
    [apply accepted_hi; [exact I | reflexivity] | reflexivity..].
Defined.

(** X8 on [plain_request], which has no [max_tokens]. *)
Lemma max_tokens_default_witness :
  demo handle_request the_client (JObj plain_request) []
  = (Return tt, [ProviderCreate plain_call])
  /\ Dict.lookup "max_tokens" plain_call = Some (JInt 1024).
Proof.
  assert (Hrun : demo handle_request the_client (JObj plain_request) []
                 = (Return tt, [ProviderCreate plain_call])) by reflexivity.
  split; [exact Hrun |].
  exact (max_tokens_default "claude-primary" "claude-fast" stub_create stub_stream
           stub_dumps 1700000000000%Z the_client plain_request (Return tt)
           [ProviderCreate plain_call] plain_call NoDup_plain_request Hrun
           (or_introl (or_introl eq_refl))).
Defined.

(** X9 on [plain_request], which asks for a model of its own. *)
Lemma provider_model_configured_witness :
  Dict.lookup "model" plain_request = Some (JStr "gpt-4")
  /\ (Dict.lookup "model" plain_call = Some (JStr "claude-primary")
      \/ Dict.lookup "model" plain_call = Some (JStr "claude-fast")).
Proof.
  split; [reflexivity |].
  exact (provider_model_configured "claude-primary" "claude-fast" stub_create
           stub_stream stub_dumps 1700000000000%Z the_client plain_request
           (Return tt) [ProviderCreate plain_call] plain_call NoDup_plain_request
           eq_refl (or_introl (or_introl eq_refl))).
Defined.

(** X12 on [streaming_request] with a stream that breaks after "Hel",
    "lo". *)
Lemma stream_broken_midway_witness :
  breaking handle_request the_client (JObj streaming_request) []
  = (Raise (ProviderError "connection reset"),
     (stream_head "claude-primary" stub_dumps 1700000000000%Z
      ++ [ProviderStream streaming_call; StreamEnter]
      ++ delta_events stub_dumps 0 ["Hel"; "lo"] ++ [StreamExit])%list).
Proof.
  exact (proj1 (stream_broken_midway "claude-primary" stub_create breaking_stream
                  stub_dumps 1700000000000%Z the_client "a b"
                  (Dict.set "model" (JStr "claude-primary") streaming_request)
                  (passthrough
                     (Dict.set "model" (JStr "claude-primary") streaming_request))
                  (JBool true) streaming_call ["Hel"; "lo"]
                  (ProviderError "connection reset") [] eq_refl eq_refl)).
Defined.

(** X14 on [haiku_request] answered with a text block and a tool call. *)
Lemma textless_block_500_witness :
  tooling create_message the_client (JObj haiku_request) []
  = (Return (jsonify (error_body "'ToolUseBlock' object has no attribute 'text'") 500),
     [ProviderCreate haiku_call]).
Proof.
  apply (textless_block_500 "claude-primary" "claude-fast" tool_create
           stub_stream stub_dumps 1700000000000%Z the_client haiku_request "hi"
           (JBool false) haiku_call tool_message
           [ {| ContentBlock.class_name := "TextBlock";
                ContentBlock.type := "text";
                ContentBlock.text := Some "Let me look." |} ]
           []
           {| ContentBlock.class_name := "ToolUseBlock";
              ContentBlock.type := "tool_use";
              ContentBlock.text := None |}
           [] (accepted_hi haiku_request I eq_refl) eq_refl eq_refl eq_refl eq_refl);
    [repeat constructor; discriminate | reflexivity].
Defined.

(** X15 on a client given one tool, whatever tools the request names. *)
Lemma add_tools_forwarded_witness :
  exists flag kw,
    VertexClaudeClient.call_kwargs
      (VertexClaudeClient.add_tools [weather_tool] the_client)
      (explicit_create "hi" [("tools", JArr [])]) [("tools", JArr [])]
    = Return (flag, kw)
    /\ Dict.lookup "tools" kw = Some (JArr [weather_tool]).
Proof.
  eexists _, _. split; [reflexivity |].
  refine (proj1 (add_tools_forwarded the_client [] [weather_tool]
                   (explicit_create "hi" [("tools", JArr [])]) [("tools", JArr [])]
                   _ _ _ eq_refl)).
  discriminate.
Defined.

(** X16 on a text part whose text is a number. *)
Lemma non_string_text_500_witness :
  exists e,
    demo create_message the_client
      (JObj [("messages",
              JArr [user_message (JArr [JObj [("type", JStr "text"); ("text", JInt 5)]])])])
      []
    = (Return (jsonify (error_body (str e)) 500), []).
Proof.
  apply (proj2 (non_string_text_500 "claude-primary" "claude-fast" stub_create
                  stub_stream stub_dumps 1700000000000%Z the_client
                  [("messages",
                    JArr [user_message
                            (JArr [JObj [("type", JStr "text"); ("text", JInt 5)]])])]
                  [("role", JStr "user");
                   ("content", JArr [JObj [("type", JStr "text"); ("text", JInt 5)]])]
                  [] [JObj [("type", JStr "text"); ("text", JInt 5)]]
                  [("type", JStr "text"); ("text", JInt 5)] (JInt 5) []
                  eq_refl eq_refl (or_introl eq_refl) eq_refl eq_refl eq_refl)).
Defined.

(** X18 on a prompt with a system prompt and [max_tokens] left out. *)
Lemma clients_agree_witness :
  VertexClaudeClient.call_kwargs the_client
    (plain_keywords "hi" None (JStr "Be brief.")) []
  = Return (JBool false,
            ClaudeClient.request_kwargs (plain_client the_client) (JStr "hi") None
              (JStr "Be brief.")).
Proof.
  apply (proj1 (clients_agree stub_create stub_stream the_client "hi" None
                  (JStr "Be brief.") [])).
  right. left. reflexivity.
Defined.

(** X20 on [haiku_request] and on [streaming_request]. *)
Lemma well_formed_request_forwarded_witness :
  (exists kw,
      provider_calls (snd (demo handle_request the_client (JObj haiku_request) []))
      = [ProviderCreate kw])
  /\ (exists kw,
        provider_calls
          (snd (failing handle_request the_client (JObj streaming_request) []))
        = [ProviderStream kw]).
Proof.
  split.
  - apply (well_formed_request_forwarded "claude-primary" "claude-fast" stub_create
             stub_stream stub_dumps 1700000000000%Z the_client haiku_request "hi").
    + apply accepted_hi; [exact I | reflexivity].
    + intros k [<- | [<- | [<- | []]]]; reflexivity.
    + right. left. reflexivity.
  - apply (well_formed_request_forwarded "claude-primary" "claude-fast" failing_create
             failing_stream stub_dumps 1700000000000%Z the_client streaming_request
             "a b").
    + split; [exact I |]. eexists _, _. split; reflexivity.
    + intros k [<- | [<- | [<- | []]]]; reflexivity.
    + left. reflexivity.
Defined.

(** X21 on [haiku_request] and the fixed message of the stub. *)
Lemma text_message_200_witness :
  exists body,
    demo create_message the_client (JObj haiku_request) []
    = (Return (jsonify body 200), [ProviderCreate haiku_call]).
Proof.
  destruct (text_message_200 "claude-primary" "claude-fast" stub_create stub_stream
              stub_dumps 1700000000000%Z the_client haiku_request "hi" (JBool false)
              haiku_call stub_message [] (accepted_hi haiku_request I eq_refl)
              eq_refl eq_refl eq_refl)
    as (blocks & _ & Hrun).
  { repeat constructor. discriminate. }
  eexists. exact Hrun.
Defined.
